(** * ChatDT analyst: the Performance Score engine of [src/analyst.py]

    A shallow embedding of [AnalystAgent] (value cleaning, statistics
    parsing, the CPS weighted sum, the comparator and the verdict
    generator) together with the properties of its specification.

    Conventions of the embedding:
    - a Python [float] is an IEEE 754 binary64 value, modelled bit-exactly
      by [spec_float] at precision 53 and maximal exponent 1024, with
      round-to-nearest-even;
    - a Python [str] is a [string] whose characters are the code points
      0..255 (Latin-1); code points above 255 are outside the model;
    - a Python [dict] keyed by strings is a [gmap string _];
    - exceptions are the [Raise] results of an error monad;
    - [print] is modelled only for the warning of [parse_statistics], as a
      list of emitted lines. *)

From Stdlib Require Import ZArith NArith Bool Ascii String List Lia.
From Stdlib Require Import Floats.SpecFloat.
From stdpp Require Import base option list strings gmap fin_maps.

Local Open Scope Z_scope.

(* ===================================================================== *)
(** * Binary64 floating point *)
(* ===================================================================== *)

Module Float64.

Definition prec : Z := 53.
Definition emax : Z := 1024.

Abbreviation float := spec_float.

Definition add : float -> float -> float := SFadd prec emax.
Definition sub : float -> float -> float := SFsub prec emax.
Definition mul : float -> float -> float := SFmul prec emax.
Definition div : float -> float -> float := SFdiv prec emax.
Definition opp : float -> float := SFopp.
Definition abs : float -> float := SFabs.

(** Python's [x < y], [x <= y] and [x == y] on floats (all false on NaN). *)
Definition ltb : float -> float -> bool := SFltb.
Definition leb : float -> float -> bool := SFleb.
Definition eqb : float -> float -> bool := SFeqb.
(** Python's [x > y]. *)
Definition gtb (x y : float) : bool := ltb y x.

Definition pzero : float := S754_zero false.
Definition nzero : float := S754_zero true.
Definition nan : float := S754_nan.
Definition infinity (neg : bool) : float := S754_infinity neg.

Definition is_finite (x : float) : bool :=
  match x with
  | S754_zero _ | S754_finite _ _ _ => true
  | _ => false
  end.

Definition is_nan (x : float) : bool :=
  match x with
  | S754_nan => true
  | _ => false
  end.

Definition is_negative (x : float) : bool :=
  match x with
  | S754_infinity s | S754_finite s _ _ => s
  | _ => false
  end.

Definition is_positive (x : float) : bool :=
  match x with
  | S754_infinity s | S754_finite s _ _ => negb s
  | _ => false
  end.

Definition is_zero (x : float) : bool :=
  match x with
  | S754_zero _ => true
  | _ => false
  end.

(** The correctly rounded value of [(-1)^neg * n * 10^e10] for [n >= 0]:
    what [float] computes for a decimal literal. *)
Definition of_decimal (neg : bool) (n : Z) (e10 : Z) : float :=
  match n with
  | Z0 => S754_zero neg
  | Zpos p =>
      if 0 <=? e10
      then binary_round prec emax neg (p * Z.to_pos (10 ^ e10))%positive 0
      else div (S754_finite neg p 0) (S754_finite false (Z.to_pos (10 ^ (- e10))) 0)
  | Zneg _ => S754_nan
  end.

(** The correctly rounded value of an integer (round half to even). *)
Definition of_Z (z : Z) : float := binary_normalize prec emax z 0 false.

(** Integers of magnitude at least [2^1024 - 2^970] round to an infinity. *)
Definition int_overflow_bound : Z := 2 ^ 1024 - 2 ^ 970.

(** [round(x, 2)]: the exact value of [x] is rounded half-to-even to a
    multiple of 1/100, which is then converted back to the nearest float;
    zeros, infinities and NaN are returned as they are. *)
Definition round_half_even (num den : Z) : Z :=
  let q := num / den in
  let r := num mod den in
  match 2 * r ?= den with
  | Lt => q
  | Gt => q + 1
  | Eq => if Z.even q then q else q + 1
  end.

(** [round_half_even] of [m * 2^e * 10^k], for [m > 0] and [k >= 0]. *)
Definition scaled_round (m : positive) (e : Z) (k : Z) : Z :=
  if 0 <=? e
  then Z.pos m * 2 ^ e * 10 ^ k
  else round_half_even (Z.pos m * 10 ^ k) (2 ^ (- e)).

Definition round2 (x : float) : float :=
  match x with
  | S754_finite s m e => of_decimal s (scaled_round m e 2) (-2)
  | _ => x
  end.

End Float64.

Abbreviation float := spec_float.

(* ===================================================================== *)
(** * Strings: the [str] methods and the [float] constructor *)
(* ===================================================================== *)

Module PyStr.

Local Open Scope N_scope.

Definition code (c : ascii) : N := N_of_ascii c.

Definition in_range (lo hi : N) (c : ascii) : bool :=
  (lo <=? code c) && (code c <=? hi).

(** [str.isspace] on one character, as used by [str.strip]. *)
Definition isspace (c : ascii) : bool :=
  in_range 9 13 c || in_range 28 32 c || (code c =? 133) || (code c =? 160).

(** The white space [float] skips at both ends of its argument. *)
Definition float_isspace (c : ascii) : bool :=
  in_range 9 13 c || (code c =? 32) || (code c =? 133) || (code c =? 160).

Definition isupper (c : ascii) : bool :=
  in_range 65 90 c || (in_range 192 222 c && negb (code c =? 215)).

Definition isdigit (c : ascii) : bool := in_range 48 57 c.

Definition lower_char (c : ascii) : ascii :=
  if isupper c then ascii_of_N (code c + 32) else c.

(** [s.lower()] *)
Fixpoint lower (s : string) : string :=
  match s with
  | EmptyString => EmptyString
  | String c s' => String (lower_char c) (lower s')
  end.

(** [s.replace(old, new)] for a pattern [old] of one character. *)
Fixpoint replace (old : ascii) (new : string) (s : string) : string :=
  match s with
  | EmptyString => EmptyString
  | String c s' =>
      if Ascii.eqb c old then new +:+ replace old new s'
      else String c (replace old new s')
  end.

Fixpoint lstrip_by (sp : ascii -> bool) (s : string) : string :=
  match s with
  | EmptyString => EmptyString
  | String c s' => if sp c then lstrip_by sp s' else s
  end.

Fixpoint rstrip_by (sp : ascii -> bool) (s : string) : string :=
  match s with
  | EmptyString => EmptyString
  | String c s' =>
      match rstrip_by sp s' with
      | EmptyString => if sp c then EmptyString else String c EmptyString
      | r => String c r
      end
  end.

Definition strip_by (sp : ascii -> bool) (s : string) : string :=
  rstrip_by sp (lstrip_by sp s).

(** [s.strip()] *)
Definition strip (s : string) : string := strip_by isspace s.

(** [c in s] for a one-character [c]. *)
Fixpoint contains (c : ascii) (s : string) : bool :=
  match s with
  | EmptyString => false
  | String c' s' => Ascii.eqb c' c || contains c s'
  end.

(** ** The [float(str)] grammar

    [float] accepts, between optional white space, an optional sign
    followed by [inf], [infinity] or [nan] in any letter case, or by a
    decimal number with an optional exponent; single underscores may
    separate digits. *)

(** Underscores are allowed only between two digits; the accepted string is
    returned without them. [prev] is the previous character. *)
Fixpoint drop_underscores (prev : option ascii) (s : string) : option string :=
  match s with
  | EmptyString =>
      match prev with
      | Some "_"%char => None
      | _ => Some EmptyString
      end
  | String c s' =>
      if Ascii.eqb c "_" then
        match prev with
        | Some p => if isdigit p then drop_underscores (Some c) s' else None
        | None => None
        end
      else
        match prev with
        | Some "_"%char =>
            if isdigit c then String c <$> drop_underscores (Some c) s' else None
        | _ => String c <$> drop_underscores (Some c) s'
        end
  end.

(** ASCII-only lower casing, as the C parser compares keywords. *)
Definition ascii_lower_char (c : ascii) : ascii :=
  if in_range 65 90 c then ascii_of_N (code c + 32) else c.

Fixpoint ascii_lower (s : string) : string :=
  match s with
  | EmptyString => EmptyString
  | String c s' => String (ascii_lower_char c) (ascii_lower s')
  end.

(** Splits off the longest prefix of decimal digits. *)
Fixpoint span_digits (s : string) : string * string :=
  match s with
  | String c s' =>
      if isdigit c then let '(d, r) := span_digits s' in (String c d, r)
      else (EmptyString, s)
  | EmptyString => (EmptyString, EmptyString)
  end.

Definition digit_value (c : ascii) : Z := Z.of_N (code c - 48).

(** The value of a digit string, most significant digit first. *)
Fixpoint digits_value (acc : Z) (s : string) : Z :=
  match s with
  | EmptyString => acc
  | String c s' => digits_value (10 * acc + digit_value c)%Z s'
  end.

Definition split_sign (s : string) : bool * string :=
  match s with
  | String "-" s' => (true, s')
  | String "+" s' => (false, s')
  | _ => (false, s)
  end.

(** The optional exponent part: [None] when what is left is not exactly an
    exponent (or nothing). *)
Definition parse_exponent (s : string) : option Z :=
  match s with
  | EmptyString => Some 0%Z
  | String c s' =>
      if Ascii.eqb c "e" || Ascii.eqb c "E" then
        let '(neg, s'') := split_sign s' in
        match span_digits s'' with
        | (String d ds, EmptyString) =>
            let v := digits_value 0 (String d ds) in
            Some (if neg then (- v)%Z else v)
        | _ => None
        end
      else None
  end.

(** A decimal number with optional fraction and exponent, as the pair of
    its integer mantissa and its power of ten. *)
Definition parse_decimal (s : string) : option (Z * Z) :=
  let '(ip, r1) := span_digits s in
  let '(fp, r2) :=
    match r1 with
    | String "." r => span_digits r
    | _ => (EmptyString, r1)
    end in
  match ip +:+ fp with
  | EmptyString => None
  | ds =>
      e ← parse_exponent r2;
      Some (digits_value 0 ds, (e - Z.of_nat (String.length fp))%Z)
  end.

(** [float(s)] for a string [s]: [None] stands for [ValueError]. *)
Definition float_of_string (s : string) : option float :=
  s1 ← drop_underscores None s;
  let '(neg, body) := split_sign (strip_by float_isspace s1) in
  let kw := ascii_lower body in
  if String.eqb kw "inf" || String.eqb kw "infinity"
  then Some (Float64.infinity neg)
  else if String.eqb kw "nan" then Some Float64.nan
  else '(n, e10) ← parse_decimal body; Some (Float64.of_decimal neg n e10).

(** ** Formatting with the presentation type [.1f] *)

Definition digit_char (d : Z) : ascii := ascii_of_N (48 + Z.to_N d).

Fixpoint decimal_digits (fuel : nat) (n : Z) (acc : string) : string :=
  match fuel with
  | O => acc
  | S fuel' =>
      let acc' := String (digit_char (n mod 10)) acc in
      if (n / 10 =? 0)%Z then acc' else decimal_digits fuel' (n / 10) acc'
  end.

(** [str(n)] for an integer [n >= 0]. *)
Definition decimal (n : Z) : string :=
  decimal_digits (S (Z.to_nat (Z.log2 n))) n EmptyString.

(** [format(x, '.1f')]: the exact value rounded half-to-even to one decimal. *)
Definition format_1f (x : float) : string :=
  match x with
  | S754_nan => "nan"
  | S754_infinity s => if s then "-inf" else "inf"
  | S754_zero s => if s then "-0.0" else "0.0"
  | S754_finite s m e =>
      let n := Float64.scaled_round m e 1 in
      (if s then "-" else "") +:+ decimal (n / 10) +:+ "." +:+ decimal (n mod 10)
  end.

(** [s[:n]] *)
Fixpoint take (n : nat) (s : string) : string :=
  match n, s with
  | S n', String c s' => String c (take n' s')
  | _, _ => EmptyString
  end.

End PyStr.

(* ===================================================================== *)
(** * Exceptions *)
(* ===================================================================== *)

Inductive exn :=
| OverflowError
| TypeError
| KeyError (key : string).

Inductive result (A : Type) :=
| Ok (a : A)
| Raise (e : exn).

Arguments Ok {A} a.
Arguments Raise {A} e.

#[global] Instance result_ret : MRet result := fun A a => Ok a.
#[global] Instance result_bind : MBind result := fun A B f m =>
  match m with
  | Ok a => f a
  | Raise e => Raise e
  end.

Definition raises {A} (m : result A) : bool :=
  match m with
  | Ok _ => false
  | Raise _ => true
  end.

(* ===================================================================== *)
(** * The data of [analyst.py] *)
(* ===================================================================== *)

(** The value of one statistic as the provider sends it (a JSON value). *)
Inductive raw_value :=
| RNone
| RBool (b : bool)
| RInt (z : Z)
| RFloat (f : float)
| RStr (s : string)
| RCollection.

(** One entry of a block's ["statistics"] list; a key that is absent from
    the JSON object is [None]. *)
Record stat_entry := {
  st_type : option string;
  st_value : option raw_value;
}.

Record team_info := { name : option string }.

(** One team-statistic block of the payload. *)
Record team_block := {
  tb_team : option team_info;
  tb_statistics : option (list stat_entry);
}.

(** A value of a parsed statistics record: the cleaned numbers, and the
    text stored under ["team_name"]. *)
Inductive stat_value :=
| SNum (f : float)
| SText (s : string).

Abbreviation stat_record := (gmap string stat_value).

(** The dictionary [{"home": ..., "away": ...}] of [parse_statistics]. *)
Record parsed_stats := {
  home : stat_record;
  away : stat_record;
}.

Inductive side := Home | Away.

Definition side_key (k : side) : string :=
  match k with
  | Home => "home"
  | Away => "away"
  end.

Definition get_side (k : side) (r : parsed_stats) : stat_record :=
  match k with
  | Home => home r
  | Away => away r
  end.

Definition set_side (k : side) (v : stat_record) (r : parsed_stats) : parsed_stats :=
  match k with
  | Home => {| home := v; away := away r |}
  | Away => {| home := home r; away := v |}
  end.

Record CPSBreakdown := {
  threat : float;
  control : float;
  friction : float;
  total : float;
}.

(** [CPSBreakdown.to_dict] *)
Definition to_dict (b : CPSBreakdown) : gmap string float :=
  <["total" := Float64.round2 (total b)]>
  (<["friction" := Float64.round2 (friction b)]>
  (<["control" := Float64.round2 (control b)]>
  (<["threat" := Float64.round2 (threat b)]> ∅))).

Record match_info := {
  fixture_id : option Z;
  home_team : string;
  away_team : string;
  home_goals : Z;
  away_goals : Z;
  date : string;
}.

Record comparison := {
  home_score : float;
  away_score : float;
  difference : float;
  better_team : string;
  dominance : string;
}.

(** A float literal of the source. *)
Definition lit (s : string) : float :=
  default Float64.nan (PyStr.float_of_string s).

(** A dictionary display [{k1: v1, k2: v2, ...}]: later keys win. *)
Definition dict_of {V} (l : list (string * V)) : gmap string V :=
  foldl (fun m kv => <[kv.1 := kv.2]> m) ∅ l.

(* ===================================================================== *)
(** * [class AnalystAgent] *)
(* ===================================================================== *)

Module AnalystAgent.

Import Float64.

(** The class attribute [WEIGHTS] as the class body creates it. *)
Definition WEIGHTS : gmap string float :=
  dict_of [
    ("shots_on_goal", lit "3.0");
    ("shots_inside_box", lit "2.0");
    ("shots_outside_box", lit "0.5");
    ("corner_kicks", lit "1.0");
    ("offsides", opp (lit "0.3"));
    ("possession", lit "0.4");
    ("pass_accuracy", lit "0.5");
    ("total_passes", lit "0.02");
    ("fouls", opp (lit "0.5"));
    ("yellow_cards", opp (lit "3.0"));
    ("red_cards", opp (lit "10.0"))
  ].

Definition STAT_MAPPING : gmap string string :=
  dict_of [
    ("Shots on Goal", "shots_on_goal");
    ("Shots off Goal", "shots_off_goal");
    ("Total Shots", "total_shots");
    ("Blocked Shots", "blocked_shots");
    ("Shots insidebox", "shots_inside_box");
    ("Shots outsidebox", "shots_outside_box");
    ("Fouls", "fouls");
    ("Corner Kicks", "corner_kicks");
    ("Offsides", "offsides");
    ("Ball Possession", "possession");
    ("Yellow Cards", "yellow_cards");
    ("Red Cards", "red_cards");
    ("Goalkeeper Saves", "goalkeeper_saves");
    ("Total passes", "total_passes");
    ("Passes accurate", "passes_accurate");
    ("Passes %", "pass_accuracy")
  ].

(** The mutable state the instances share: the dictionary bound to the
    class attribute [WEIGHTS]. An instance has no attribute of that name, so
    [self.WEIGHTS] denotes this one dictionary for every instance. *)
Record class_state := { cls_WEIGHTS : gmap string float }.

Definition initial_state : class_state := {| cls_WEIGHTS := WEIGHTS |}.

(** An instance: [__init__] stores nothing in it. *)
Inductive agent := Agent.

(** [__init__(self, weights=None)]: a non-empty [weights] is merged into
    the class dictionary in place ([dict.update]). *)
Definition init (weights : option (gmap string float)) (st : class_state)
  : agent * class_state :=
  match weights with
  | Some w =>
      if bool_decide (size w = 0%nat) then (Agent, st)
      else (Agent, {| cls_WEIGHTS := w ∪ cls_WEIGHTS st |})
  | None => (Agent, st)
  end.

(** [self.WEIGHTS] *)
Definition self_WEIGHTS (self : agent) (st : class_state) : gmap string float :=
  cls_WEIGHTS st.

(** [float(value)] for an [int]. *)
Definition float_of_int (z : Z) : result float :=
  if Z.abs z <? int_overflow_bound then Ok (of_Z z) else Raise OverflowError.

Definition _clean_stat_value (value : raw_value) : result float :=
  match value with
  | RNone => Ok pzero
  | RStr s =>
      let cleaned := PyStr.strip (PyStr.replace "%" "" s) in
      match PyStr.float_of_string cleaned with
      | Some f => Ok f
      | None => Ok pzero
      end
  | RFloat f => Ok f
  | RInt z => float_of_int z
  | RBool b => Ok (if b then of_Z 1 else pzero)
  | RCollection => Raise TypeError
  end.

(** [self.STAT_MAPPING.get(stat_type, stat_type.lower().replace(" ", "_"))] *)
Definition internal_name (stat_type : string) : string :=
  default (PyStr.replace " " "_" (PyStr.lower stat_type)) (STAT_MAPPING !! stat_type).

(** The inner loop of [parse_statistics] over one block's statistics,
    writing into the record [rec]. *)
Fixpoint parse_block (stats : list stat_entry) (rec : stat_record)
  : result stat_record :=
  match stats with
  | [] => Ok rec
  | stat :: rest =>
      let stat_type := default EmptyString (st_type stat) in
      let value := default RNone (st_value stat) in
      clean_value ← _clean_stat_value value;
      parse_block rest (<[internal_name stat_type := SNum clean_value]> rec)
  end.

Definition block_team_name (team_stats : team_block) (key : side) : string :=
  match tb_team team_stats with
  | Some t => default (side_key key) (name t)
  | None => side_key key
  end.

(** The outer loop [for i, team_stats in enumerate(stats_data)]. *)
Fixpoint parse_blocks (i : nat) (stats_data : list team_block) (res : parsed_stats)
  : result parsed_stats :=
  match stats_data with
  | [] => Ok res
  | team_stats :: rest =>
      let key := if (i =? 0)%nat then Home else Away in
      let team_name := block_team_name team_stats key in
      rec ← parse_block (default [] (tb_statistics team_stats)) (get_side key res);
      parse_blocks (S i) rest
        (set_side key (<["team_name" := SText team_name]> rec) res)
  end.

Definition incomplete_warning : string := "[ANALYST] WARN: Estadisticas incompletas".

Definition empty_stats : parsed_stats := {| home := ∅; away := ∅ |}.

(** [parse_statistics(self, stats_data)]: the printed lines and the
    outcome. [None] is Python's [None]. *)
Definition parse_statistics (stats_data : option (list team_block))
  : list string * result parsed_stats :=
  match stats_data with
  | None => ([incomplete_warning], Ok empty_stats)
  | Some l =>
      if bool_decide (l = []) || (length l <? 2)%nat
      then ([incomplete_warning], Ok empty_stats)
      else ([], parse_blocks 0 l empty_stats)
  end.

(** [stats.get(k, 0) * self.WEIGHTS[k]] *)
Definition weighted (W : gmap string float) (stats : stat_record) (k : string)
  : result float :=
  match W !! k with
  | None => Raise (KeyError k)
  | Some w =>
      match stats !! k with
      | None => Ok (mul (of_Z 0) w)
      | Some (SNum x) => Ok (mul x w)
      | Some (SText _) => Raise TypeError
      end
  end.

Definition calculate_cps (self : agent) (st : class_state) (stats : stat_record)
  : result CPSBreakdown :=
  let W := self_WEIGHTS self st in
  t1 ← weighted W stats "shots_on_goal";
  t2 ← weighted W stats "shots_inside_box";
  t3 ← weighted W stats "shots_outside_box";
  t4 ← weighted W stats "corner_kicks";
  t5 ← weighted W stats "offsides";
  let threat := add (add (add (add t1 t2) t3) t4) t5 in
  c1 ← weighted W stats "possession";
  c2 ← weighted W stats "pass_accuracy";
  c3 ← weighted W stats "total_passes";
  let control := add (add c1 c2) c3 in
  f1 ← weighted W stats "fouls";
  f2 ← weighted W stats "yellow_cards";
  f3 ← weighted W stats "red_cards";
  let friction := add (add f1 f2) f3 in
  let total := add (add threat control) friction in
  Ok {| threat := threat; control := control; friction := friction; total := total |}.

Definition tied : string := "Empate tecnico".

(** The comparison block of [analyze_match] (from [diff = ...] to the
    [comparison] dictionary). *)
Definition compare (info : match_info) (home_cps away_cps : CPSBreakdown)
  : comparison :=
  let diff := sub (total home_cps) (total away_cps) in
  let '(better, dom) :=
    if gtb diff (of_Z 5) then (home_team info, "claramente")
    else if gtb diff (of_Z 2) then (home_team info, "ligeramente")
    else if ltb diff (of_Z (-5)) then (away_team info, "claramente")
    else if ltb diff (of_Z (-2)) then (away_team info, "ligeramente")
    else (tied, EmptyString) in
  {| home_score := round2 (total home_cps);
     away_score := round2 (total away_cps);
     difference := round2 (abs diff);
     better_team := better;
     dominance := dom |}.

(** The [return] statement [_generate_verdict] leaves by, with the values
    its text is formatted from. *)
Inductive verdict :=
| Deserved (winner : string) (winner_cps diff : float)
| CloseGame (winner : string) (diff : float)
| Unjust (better : string) (better_cps diff : float) (winner : string)
| FairDraw
| DrawUndersells (better : string) (diff : float)
| Completed.

Definition verdict_text (v : verdict) : string :=
  match v with
  | Deserved winner winner_cps diff =>
      winner +:+ " gano y merecio el triunfo. " +:+
      "Su CPS de " +:+ PyStr.format_1f winner_cps +:+ " fue superior por " +:+
      PyStr.format_1f diff +:+ " puntos."
  | CloseGame winner diff =>
      "Partido parejo. " +:+ winner +:+ " se llevo los 3 puntos pero " +:+
      "el rendimiento fue muy similar (diferencia de solo " +:+
      PyStr.format_1f diff +:+ " puntos)."
  | Unjust better better_cps diff winner =>
      "Resultado injusto! " +:+ better +:+ " fue el mejor equipo con un CPS de " +:+
      PyStr.format_1f better_cps +:+ ", " +:+
      "superior por " +:+ PyStr.format_1f diff +:+ " puntos, pero " +:+ winner +:+
      " se llevo la victoria. " +:+
      "El futbol a veces no premia al mejor."
  | FairDraw => "Empate justo. Ambos equipos rindieron de manera similar."
  | DrawUndersells better diff =>
      "Empate con sabor a poco para " +:+ better +:+ ", " +:+
      "que fue superior por " +:+ PyStr.format_1f diff +:+ " puntos de CPS."
  | Completed => "Analisis completado."
  end.

(** The truth value of [winner], which is [None] or a string. *)
Definition truthy (winner : option string) : bool :=
  match winner with
  | Some (String _ _) => true
  | _ => false
  end.

Definition winner_is (winner : option string) (s : string) : bool :=
  match winner with
  | Some w => String.eqb w s
  | None => false
  end.

Definition select_verdict (info : match_info) (cmp : comparison)
  (home_cps away_cps : CPSBreakdown) : verdict :=
  let home := home_team info in
  let away := away_team info in
  let '(winner, winner_cps) :=
    if home_goals info >? away_goals info then (Some home, total home_cps)
    else if away_goals info >? home_goals info then (Some away, total away_cps)
    else (None, of_Z 0) in
  let better := better_team cmp in
  let diff := difference cmp in
  let better_cps :=
    if String.eqb better home then total home_cps else total away_cps in
  let w := default EmptyString winner in
  if truthy winner && winner_is winner better then
    Deserved w winner_cps diff
  else if truthy winner && String.eqb better tied then
    CloseGame w diff
  else if truthy winner && negb (winner_is winner better)
          && negb (String.eqb better tied) then
    Unjust better better_cps diff w
  else if negb (truthy winner) then
    if String.eqb better tied then FairDraw else DrawUndersells better diff
  else Completed.

Definition _generate_verdict (info : match_info) (cmp : comparison)
  (home_cps away_cps : CPSBreakdown) : string :=
  verdict_text (select_verdict info cmp home_cps away_cps).

(** The match document [analyze_match] reads; a key the JSON object lacks
    is [None]. *)
Record match_data := {
  md_fixture_id : option Z;
  md_home_name : option string;
  md_away_name : option string;
  md_home_goals : option Z;
  md_away_goals : option Z;
  md_date : option string;
  md_statistics : option (option (list team_block));
}.

Record analysis := {
  an_match_info : match_info;
  an_stats : parsed_stats;
  an_cps_scores : gmap string float * gmap string float;
  an_home_cps : CPSBreakdown;
  an_away_cps : CPSBreakdown;
  an_comparison : comparison;
  an_verdict : string;
}.

(** [analyze_match] on an already loaded document; of the printed lines
    only the warning of [parse_statistics] is kept. *)
Definition analyze_match (self : agent) (st : class_state) (data : match_data)
  : list string * result analysis :=
  let info :=
    {| fixture_id := md_fixture_id data;
       home_team := default "Home" (md_home_name data);
       away_team := default "Away" (md_away_name data);
       home_goals := default 0 (md_home_goals data);
       away_goals := default 0 (md_away_goals data);
       date := PyStr.take 10 (default EmptyString (md_date data)) |} in
  let '(out, parsed) := parse_statistics (default (Some []) (md_statistics data)) in
  (out,
   stats ← parsed;
   home_cps ← calculate_cps self st (home stats);
   away_cps ← calculate_cps self st (away stats);
   let cmp := compare info home_cps away_cps in
   Ok {| an_match_info := info;
         an_stats := stats;
         an_cps_scores := (to_dict home_cps, to_dict away_cps);
         an_home_cps := home_cps;
         an_away_cps := away_cps;
         an_comparison := cmp;
         an_verdict := _generate_verdict info cmp home_cps away_cps |}).

End AnalystAgent.

(* ===================================================================== *)
(** * Notions the properties are stated with *)
(* ===================================================================== *)

Import AnalystAgent.

Declare Scope float_scope.
Delimit Scope float_scope with float.
Infix "+" := Float64.add : float_scope.
Infix "-" := Float64.sub : float_scope.
Infix "*" := Float64.mul : float_scope.
Notation "- x" := (Float64.opp x) : float_scope.

(** Python's [x == 0] on a float. *)
Definition is_zero_value (x : float) : bool := Float64.eqb x (Float64.of_Z 0).

Definition is_num (v : stat_value) : bool :=
  match v with
  | SNum _ => true
  | SText _ => false
  end.

(** A cleaned statistics record: every entry is a float, except for the
    text [parse_statistics] stores under ["team_name"]. *)
Definition cleaned (stats : stat_record) : Prop :=
  map_Forall (fun k v => k = "team_name" ∨ is_num v = true) stats.

#[global] Instance cleaned_dec (stats : stat_record) : Decision (cleaned stats).
Proof. unfold cleaned. apply _. Defined.

(** The statistic [k] of a record, a missing one counting as [0]. *)
Definition stat (stats : stat_record) (k : string) : float :=
  match stats !! k with
  | Some (SNum x) => x
  | _ => Float64.of_Z 0
  end.

(** The eleven statistics the score reads. *)
Definition scored_keys : list string :=
  ["shots_on_goal"; "shots_inside_box"; "shots_outside_box"; "corner_kicks";
   "offsides"; "possession"; "pass_accuracy"; "total_passes"; "fouls";
   "yellow_cards"; "red_cards"].

(** The states of the class dictionary a program can reach: the class body
    creates it, and each construction of an instance may update it. *)
Inductive reachable : class_state -> Prop :=
| reachable_initial : reachable initial_state
| reachable_init weights st : reachable st -> reachable (init weights st).2.

(** The number of team blocks of a payload; [None] has none. *)
Definition blocks_count (stats_data : option (list team_block)) : nat :=
  match stats_data with
  | Some l => length l
  | None => 0
  end.

(** The raw values of the stated input domain: a number, a string or null. *)
Definition number_string_or_null (v : raw_value) : bool :=
  match v with
  | RNone | RInt _ | RFloat _ | RStr _ => true
  | RBool _ | RCollection => false
  end.

(** The raw values [float] accepts: every value but a collection and an
    integer too large for a binary64. *)
Definition convertible (v : raw_value) : bool :=
  match v with
  | RInt z => Z.abs z <? Float64.int_overflow_bound
  | RCollection => false
  | _ => true
  end.

Definition entry_value (e : stat_entry) : raw_value := default RNone (st_value e).

Definition block_entries (b : team_block) : list stat_entry :=
  default [] (tb_statistics b).

Definition payload_values (stats_data : option (list team_block)) : list raw_value :=
  match stats_data with
  | Some l => concat (map (fun b => map entry_value (block_entries b)) l)
  | None => []
  end.

(** What one block writes into the record of its side. *)
Definition write_block (key : side) (b : team_block) (rec : stat_record)
  : result stat_record :=
  rec' ← parse_block (block_entries b) rec;
  Ok (<["team_name" := SText (block_team_name b key)]> rec').

(** Blocks written one after the other into the same record. *)
Fixpoint write_blocks (key : side) (bs : list team_block) (rec : stat_record)
  : result stat_record :=
  match bs with
  | [] => Ok rec
  | b :: rest => rec' ← write_block key b rec; write_blocks key rest rec'
  end.

(** A character of a label that is not in the table: a space becomes an
    underscore, an upper-case letter its lower-case letter, and any other
    character is kept. *)
Definition normalize_char (c : ascii) : ascii :=
  if Ascii.eqb c " " then "_"%char else PyStr.lower_char c.

Fixpoint map_chars (f : ascii -> ascii) (s : string) : string :=
  match s with
  | EmptyString => EmptyString
  | String c s' => String (f c) (map_chars f s')
  end.

Fixpoint all_chars (p : ascii -> bool) (s : string) : bool :=
  match s with
  | EmptyString => true
  | String c s' => p c && all_chars p s'
  end.

Definition plain_char (c : ascii) : bool :=
  negb (Ascii.eqb c " ") && negb (PyStr.isupper c).

(** The goal outcome of a match. *)
Inductive outcome := HomeWins | AwayWins | Draw.

Definition outcome_of (info : match_info) : outcome :=
  if home_goals info >? away_goals info then HomeWins
  else if away_goals info >? home_goals info then AwayWins
  else Draw.

(** ** Sample data *)

Definition with_total (t : float) : CPSBreakdown :=
  {| threat := t; control := Float64.of_Z 0; friction := Float64.of_Z 0;
     total := t |}.

Definition sample_info : match_info :=
  {| fixture_id := Some 971362; home_team := "Boca"; away_team := "River";
     home_goals := 3; away_goals := 1; date := "2023-05-07" |}.

Definition sample_stats : stat_record :=
  dict_of [("shots_on_goal", SNum (lit "5")); ("possession", SNum (lit "55"));
           ("fouls", SNum (lit "12")); ("team_name", SText "Boca")].

Definition override_fouls_1 : gmap string float :=
  dict_of [("fouls", Float64.opp (lit "1.0"))].

Definition override_fouls_2 : gmap string float :=
  dict_of [("fouls", Float64.opp (lit "2.0"))].

Definition entry (t : string) (v : raw_value) : stat_entry :=
  {| st_type := Some t; st_value := Some v |}.

Definition block (team : string) (stats : list stat_entry) : team_block :=
  {| tb_team := Some {| name := Some team |}; tb_statistics := Some stats |}.

(** Two blocks, the first with an integer of 309 digits. *)
Definition overflow_payload : option (list team_block) :=
  Some [block "Boca" [entry "Fouls" (RInt (10 ^ 308 * 2))];
        block "River" [entry "Fouls" (RInt 9)]].

Definition three_blocks : option (list team_block) :=
  Some [block "Boca" [entry "Fouls" (RInt 12)];
        block "River" [entry "Fouls" (RInt 9); entry "Offsides" (RInt 2)];
        block "Racing" [entry "Fouls" (RInt 20); entry "Ball Possession" (RStr "61%")]].

(* ===================================================================== *)
(** * The rest of [analyst.py] and the readers of an analysis *)
(* ===================================================================== *)

(** The sign bit of a float; a NaN has none. *)
Definition signbit (x : float) : bool :=
  match x with
  | S754_zero s | S754_infinity s | S754_finite s _ _ => s
  | S754_nan => false
  end.

(** A float that is not a NaN and has the sign bit [s]: with [s = false] a
    value [>= +0.0] (possibly infinite), with [s = true] a value [<= -0.0]. *)
Definition sign_is (s : bool) (x : float) : Prop :=
  Float64.is_nan x = false /\ signbit x = s.

(** Whether a text begins with a minus sign. *)
Definition starts_with_minus (s : string) : bool :=
  match s with
  | String c _ => Ascii.eqb c "-"
  | EmptyString => false
  end.

(** The dictionaries [home_cps_dict] and [away_cps_dict] that
    [analyze_match] returns under ["home_cps"] and ["away_cps"]: the
    unrounded breakdown under capitalised keys. *)
Definition cps_dict (b : CPSBreakdown) : gmap string float :=
  dict_of [("Threat", threat b); ("Control", control b);
           ("Friction", friction b); ("TOTAL", total b)].

(** The match with the two teams exchanged. *)
Definition swap_teams (info : match_info) : match_info :=
  {| fixture_id := fixture_id info;
     home_team := away_team info; away_team := home_team info;
     home_goals := away_goals info; away_goals := home_goals info;
     date := date info |}.

Definition threat_keys : list string :=
  ["shots_on_goal"; "shots_inside_box"; "shots_outside_box"; "corner_kicks";
   "offsides"].

Definition control_keys : list string :=
  ["possession"; "pass_accuracy"; "total_passes"].

Definition friction_keys : list string :=
  ["fouls"; "yellow_cards"; "red_cards"].

(** The internal name an entry of a block is stored under. *)
Definition entry_key (e : stat_entry) : string :=
  internal_name (default EmptyString (st_type e)).

(** The last entry of a block's list that is stored under [k]. *)
Definition last_entry (k : string) (ss : list stat_entry) : option stat_entry :=
  last (filter (fun e => entry_key e = k) ss).

(** ** [AnalystAgent.to_dataframe]: the columns handed to [pd.DataFrame] *)

(** A cell of a column: a label or the empty text, a statistic of a parsed
    record, the default [0] of [dict.get], or a rounded score. *)
Inductive cell :=
| CText (s : string)
| CStat (v : stat_value)
| CInt (z : Z)
| CScore (f : float).

(** [data[k].append(c)] *)
Definition append_cell (k : string) (c : cell) (data : gmap string (list cell))
  : result (gmap string (list cell)) :=
  match data !! k with
  | Some l => Ok (<[k := l ++ [c]]> data)
  | None => Raise (KeyError k)
  end.

(** [stats.get(key, 0)] as a cell. *)
Definition stat_cell (stats : stat_record) (key : string) : cell :=
  match stats !! key with
  | Some v => CStat v
  | None => CInt 0
  end.

(** [scores[key]] as a cell. *)
Definition score_cell (scores : gmap string float) (key : string) : result cell :=
  match scores !! key with
  | Some f => Ok (CScore f)
  | None => Raise (KeyError key)
  end.

Definition dataframe_metrics : list (string * string) :=
  [("Shots on Goal", "shots_on_goal");
   ("Shots Inside Box", "shots_inside_box");
   ("Total Shots", "total_shots");
   ("Possession %", "possession");
   ("Pass Accuracy %", "pass_accuracy");
   ("Corner Kicks", "corner_kicks");
   ("Fouls", "fouls");
   ("Yellow Cards", "yellow_cards")].

Definition dataframe_scores : list (string * string) :=
  [("Threat", "threat"); ("Control", "control"); ("Friction", "friction");
   ("TOTAL CPS", "total")].

(** The first loop of [to_dataframe]. *)
Fixpoint dataframe_stat_rows (home away : string) (home_stats away_stats : stat_record)
  (rows : list (string * string)) (data : gmap string (list cell))
  : result (gmap string (list cell)) :=
  match rows with
  | [] => Ok data
  | (label, key) :: rest =>
      data ← append_cell "Metrica" (CText label) data;
      data ← append_cell home (stat_cell home_stats key) data;
      data ← append_cell away (stat_cell away_stats key) data;
      dataframe_stat_rows home away home_stats away_stats rest data
  end.

(** The second loop of [to_dataframe]. *)
Fixpoint dataframe_score_rows (home away : string)
  (home_scores away_scores : gmap string float)
  (rows : list (string * string)) (data : gmap string (list cell))
  : result (gmap string (list cell)) :=
  match rows with
  | [] => Ok data
  | (label, key) :: rest =>
      data ← append_cell "Metrica" (CText label) data;
      hc ← score_cell home_scores key;
      data ← append_cell home hc data;
      ac ← score_cell away_scores key;
      data ← append_cell away ac data;
      dataframe_score_rows home away home_scores away_scores rest data
  end.

(** [to_dataframe] up to the call of [pd.DataFrame]: the dictionary [data]
    of the three columns. *)
Definition to_dataframe_columns (an : analysis) : result (gmap string (list cell)) :=
  let home_stats := home (an_stats an) in
  let away_stats := away (an_stats an) in
  let home := home_team (an_match_info an) in
  let away := away_team (an_match_info an) in
  let data : gmap string (list cell) :=
    dict_of [("Metrica", []); (home, []); (away, [])] in
  data ← dataframe_stat_rows home away home_stats away_stats
            dataframe_metrics data;
  data ← append_cell "Metrica" (CText "--- CPS ---") data;
  data ← append_cell home (CText EmptyString) data;
  data ← append_cell away (CText EmptyString) data;
  dataframe_score_rows home away (an_cps_scores an).1 (an_cps_scores an).2
    dataframe_scores data.

(** The length of the column [k], 0 when there is none. *)
Definition column_length (k : string) (data : gmap string (list cell)) : nat :=
  length (default [] (data !! k)).

(** How many of the three column names are [k]. *)
Definition column_uses (home away k : string) : nat :=
  length (filter (fun c => c = k) ["Metrica"; home; away]).

(** The three column names are keys of the dictionary. *)
Definition columns_present (home away : string) (data : gmap string (list cell)) : Prop :=
  is_Some (data !! "Metrica") /\ is_Some (data !! home) /\ is_Some (data !! away).

(** ** [VisualizerAgent._draw_cps_bars_on_ax]: the heights of the bars *)

Definition bar_categories : list string := ["Threat"; "Control"; "Friction"; "TOTAL"].

(** [[scores[k.lower()] for k in categories]] *)
Fixpoint bar_scores (categories : list string) (scores : gmap string float)
  : result (list float) :=
  match categories with
  | [] => Ok []
  | k :: rest =>
      match scores !! PyStr.lower k with
      | Some f => fs ← bar_scores rest scores; Ok (f :: fs)
      | None => Raise (KeyError (PyStr.lower k))
      end
  end.

(** ** [generate_ui_report] of [app.py] *)




(** The breakdown of an empty record under the default weights. *)
Definition zero_breakdown : CPSBreakdown :=
  {| threat := Float64.pzero; control := Float64.pzero;
     friction := Float64.nzero; total := Float64.pzero |}.

(** The comparison of two equal scores of zero. *)
Definition tied_comparison : comparison :=
  {| home_score := Float64.pzero; away_score := Float64.pzero;
     difference := Float64.pzero; better_team := tied;
     dominance := EmptyString |}.



(* ===================================================================== *)
(** * Facts about binary64 arithmetic *)
(* ===================================================================== *)

Section Float64_facts.

Import Float64.

Lemma binary_round_aux_negb s m e l :
  binary_round_aux prec emax (negb s) m e l
  = SFopp (binary_round_aux prec emax s m e l).
Proof.
  unfold binary_round_aux.
  destruct (shr_fexp prec emax m e l) as [mrs' e'].
  destruct (shr_fexp prec emax _ e' loc_Exact) as [mrs'' e''].
  destruct (shr_m mrs''); simpl; try reflexivity.
  destruct (e'' <=? emax - prec); reflexivity.
Qed.

Lemma mul_comm x y : mul x y = mul y x.
Proof.
  unfold mul.
  destruct x as [sx|sx| |sx mx ex], y as [sy|sy| |sy my ey]; simpl;
    rewrite ?(xorb_comm sx sy); try reflexivity.
  now rewrite Pos.mul_comm, Z.add_comm.
Qed.

Lemma mul_opp_r x y : mul x (opp y) = opp (mul x y).
Proof.
  unfold mul, opp.
  destruct x as [sx|sx| |sx mx ex], y as [sy|sy| |sy my ey]; simpl;
    try reflexivity; try (f_equal; destruct sx, sy; reflexivity).
  replace (xorb sx (negb sy)) with (negb (xorb sx sy)) by (now destruct sx, sy).
  apply binary_round_aux_negb.
Qed.

Lemma mul_opp_l x y : mul (opp x) y = opp (mul x y).
Proof. now rewrite mul_comm, mul_opp_r, mul_comm. Qed.

Lemma sub_add_opp x y : sub x y = add x (opp y).
Proof.
  unfold sub, add, opp.
  destruct x as [sx|sx| |sx mx ex], y as [sy|sy| |sy my ey]; simpl;
    try reflexivity; try (destruct sx, sy; reflexivity).
Qed.

Lemma compare_antisym x y :
  SFcompare x y = option_map CompOpp (SFcompare y x).
Proof.
  destruct x as [sx|sx| |sx mx ex], y as [sy|sy| |sy my ey]; simpl;
    try reflexivity;
    try (destruct sx; reflexivity); try (destruct sy; reflexivity);
    try (destruct sx, sy; reflexivity).
  destruct sx, sy; simpl; try reflexivity;
    rewrite (Z.compare_antisym ex ey); destruct (ex ?= ey); simpl;
    try reflexivity;
    rewrite (Pos.compare_cont_antisym _ _ Eq); simpl; try reflexivity.
  now rewrite CompOpp_involutive.
Qed.

(** [x <= y] excludes [y < x]. *)
Lemma leb_not_gtb x y : leb x y = true -> ltb y x = false.
Proof.
  unfold leb, ltb, SFleb, SFltb. rewrite (compare_antisym y x).
  destruct (SFcompare x y) as [[]|]; simpl; congruence.
Qed.

Lemma compare_not_nan x y :
  is_nan x = false -> is_nan y = false -> SFcompare x y <> None.
Proof.
  destruct x as [sx|sx| |sx mx ex], y as [sy|sy| |sy my ey]; simpl; congruence.
Qed.

Lemma ltb_not_nan_l x y : ltb x y = true -> is_nan x = false.
Proof. unfold ltb, SFltb. destruct x; simpl; congruence. Qed.

Lemma ltb_not_nan_r x y : ltb x y = true -> is_nan y = false.
Proof. unfold ltb, SFltb. destruct x, y; simpl; congruence. Qed.

(** Two comparable floats satisfy [x <= y] or [y < x]. *)
Lemma not_gtb_leb x y :
  is_nan x = false -> is_nan y = false -> ltb y x = false -> leb x y = true.
Proof.
  intros Hx Hy. pose proof (compare_not_nan x y Hx Hy) as Hc.
  unfold leb, ltb, SFleb, SFltb. rewrite (compare_antisym y x).
  destruct (SFcompare x y) as [[]|]; simpl; congruence.
Qed.

(** Below a negative float there are only negative floats, and above a
    positive one only positive floats. *)
Lemma ltb_negative x y : is_negative y = true -> ltb x y = true -> is_negative x = true.
Proof.
  unfold ltb, SFltb.
  destruct x as [sx|sx| |sx mx ex], y as [sy|sy| |sy my ey]; simpl;
    try congruence; intros ->; try destruct sx; simpl; congruence.
Qed.

Lemma ltb_positive x y : is_positive x = true -> ltb x y = true -> is_positive y = true.
Proof.
  unfold ltb, SFltb.
  destruct x as [sx|sx| |sx mx ex], y as [sy|sy| |sy my ey]; simpl;
    try congruence; intros H; apply negb_true_iff in H; subst;
    try destruct sy; simpl; congruence.
Qed.

Lemma negative_not_positive x : is_negative x = true -> is_positive x = false.
Proof. destruct x as [s|s| |s m e]; simpl; try congruence; now intros ->. Qed.

Lemma positive_not_ltb_negative x y :
  is_positive x = true -> is_negative y = true -> ltb x y = false.
Proof.
  unfold ltb, SFltb.
  destruct x as [sx|sx| |sx mx ex], y as [sy|sy| |sy my ey]; simpl;
    try congruence; intros H ->; apply negb_true_iff in H; subst; reflexivity.
Qed.

(** The bound of [float_of_int] is where rounding to nearest, ties to even,
    leaves the finite range. *)
Example of_Z_below_bound :
  of_Z (int_overflow_bound - 1) = S754_finite false 9007199254740991 971.
Proof. vm_compute. reflexivity. Qed.

Example of_Z_at_bound : of_Z int_overflow_bound = S754_infinity false.
Proof. vm_compute. reflexivity. Qed.

End Float64_facts.

(* ===================================================================== *)
(** * The weighted sum: [calculate_cps] *)
(* ===================================================================== *)

Section Score.

Import Float64.
Local Open Scope float_scope.

(** The literals of the weight table denote the nearest binary64 values. *)
Example lit_three : lit "3.0" = S754_finite false 6755399441055744 (-51).
Proof. reflexivity. Qed.

Example lit_three_tenths : lit "0.3" = S754_finite false 5404319552844595 (-54).
Proof. reflexivity. Qed.

Example lit_two_hundredths : lit "0.02" = S754_finite false 5764607523034235 (-58).
Proof. reflexivity. Qed.

Lemma WEIGHTS_size : size WEIGHTS = 11%nat.
Proof. reflexivity. Qed.

Lemma WEIGHTS_lookup :
  WEIGHTS !! "shots_on_goal" = Some (lit "3.0")
  /\ WEIGHTS !! "shots_inside_box" = Some (lit "2.0")
  /\ WEIGHTS !! "shots_outside_box" = Some (lit "0.5")
  /\ WEIGHTS !! "corner_kicks" = Some (lit "1.0")
  /\ WEIGHTS !! "offsides" = Some (- lit "0.3")
  /\ WEIGHTS !! "possession" = Some (lit "0.4")
  /\ WEIGHTS !! "pass_accuracy" = Some (lit "0.5")
  /\ WEIGHTS !! "total_passes" = Some (lit "0.02")
  /\ WEIGHTS !! "fouls" = Some (- lit "0.5")
  /\ WEIGHTS !! "yellow_cards" = Some (- lit "3.0")
  /\ WEIGHTS !! "red_cards" = Some (- lit "10.0").
Proof. repeat split; vm_compute; reflexivity. Qed.

(** On a cleaned record a term of the sum is the product of the statistic
    (0 when missing) and its weight. *)
Lemma weighted_cleaned (W : gmap string float) (stats : stat_record) k w :
  cleaned stats -> k <> "team_name" -> W !! k = Some w ->
  weighted W stats k = Ok (stat stats k * w).
Proof.
  intros Hc Hk HW. unfold weighted, stat. rewrite HW.
  destruct (stats !! k) as [[x|t]|] eqn:E; try reflexivity.
  destruct (Hc k (SText t) E) as [->|H]; [congruence | discriminate].
Qed.

Lemma bind_Ok {A B} (f : A -> result B) (a : A) : (Ok a ≫= f) = f a.
Proof. reflexivity. Qed.

Lemma bind_Raise {A B} (f : A -> result B) (e : exn) : (Raise e ≫= f) = Raise e.
Proof. reflexivity. Qed.

Ltac weighted_step H H' :=
  rewrite (fun Hk => weighted_cleaned _ _ _ _ H Hk H') by discriminate;
  rewrite bind_Ok.

(** C1. For every cleaned statistics record, [calculate_cps] under the
    default weights returns the breakdown with
    threat = 3.0*shots_on_goal + 2.0*shots_inside_box + 0.5*shots_outside_box
             + 1.0*corner_kicks - 0.3*offsides,
    control = 0.4*possession + 0.5*pass_accuracy + 0.02*total_passes,
    friction = -0.5*fouls - 3.0*yellow_cards - 10.0*red_cards,
    a missing statistic counting as 0, and total = threat + control + friction,
    all in binary64 arithmetic evaluated from left to right. *)
Theorem calculate_cps_formula (stats : stat_record) :
  cleaned stats ->
  let v := stat stats in
  let threat :=
    lit "3.0" * v "shots_on_goal" + lit "2.0" * v "shots_inside_box"
    + lit "0.5" * v "shots_outside_box" + lit "1.0" * v "corner_kicks"
    - lit "0.3" * v "offsides" in
  let control :=
    lit "0.4" * v "possession" + lit "0.5" * v "pass_accuracy"
    + lit "0.02" * v "total_passes" in
  let friction :=
    (- lit "0.5") * v "fouls" - lit "3.0" * v "yellow_cards"
    - lit "10.0" * v "red_cards" in
  calculate_cps Agent initial_state stats
  = Ok {| threat := threat; control := control; friction := friction;
          total := threat + control + friction |}.
Proof.
  intros Hc v.
  destruct WEIGHTS_lookup as (W1 & W2 & W3 & W4 & W5 & W6 & W7 & W8 & W9 & W10 & W11).
  unfold calculate_cps, self_WEIGHTS, initial_state, cls_WEIGHTS.
  weighted_step Hc W1. weighted_step Hc W2. weighted_step Hc W3.
  weighted_step Hc W4. weighted_step Hc W5. weighted_step Hc W6.
  weighted_step Hc W7. weighted_step Hc W8. weighted_step Hc W9.
  weighted_step Hc W10. weighted_step Hc W11.
  fold v.
  rewrite !mul_opp_r, !mul_opp_l, <- !sub_add_opp.
  rewrite (mul_comm (v "shots_on_goal")), (mul_comm (v "shots_inside_box")),
    (mul_comm (v "shots_outside_box")), (mul_comm (v "corner_kicks")),
    (mul_comm (v "offsides")), (mul_comm (v "possession")),
    (mul_comm (v "pass_accuracy")), (mul_comm (v "total_passes")),
    (mul_comm (v "fouls")), (mul_comm (v "yellow_cards")),
    (mul_comm (v "red_cards")).
  reflexivity.
Qed.

End Score.

Lemma sample_stats_cleaned : cleaned sample_stats.
Proof. apply (bool_decide_unpack _). vm_compute. reflexivity. Qed.

Lemma calculate_cps_formula_witness :
  cleaned sample_stats
  /\ exists b, calculate_cps Agent initial_state sample_stats = Ok b
       /\ total b = Float64.add (Float64.add (threat b) (control b)) (friction b).
Proof.
  split; [exact sample_stats_cleaned |].
  eexists; split;
    [apply (calculate_cps_formula sample_stats sample_stats_cleaned) | reflexivity].
Defined.

Example calculate_cps_sample :
  calculate_cps Agent initial_state sample_stats
  = Ok {| threat := lit "15.0"; control := lit "22.0";
          friction := Float64.opp (lit "6.0"); total := lit "31.0" |}.
Proof. vm_compute. reflexivity. Qed.

(* ===================================================================== *)
(** * The comparator of [analyze_match] *)
(* ===================================================================== *)

Section Comparator.

Import Float64.
Local Open Scope float_scope.

(** The two labels of a comparison, as the chain of tests on [diff]. *)
Lemma compare_labels (info : match_info) (h a : CPSBreakdown) :
  let d := total h - total a in
  (better_team (compare info h a), dominance (compare info h a))
  = if gtb d (of_Z 5) then (home_team info, "claramente")
    else if gtb d (of_Z 2) then (home_team info, "ligeramente")
    else if ltb d (of_Z (-5)) then (away_team info, "claramente")
    else if ltb d (of_Z (-2)) then (away_team info, "ligeramente")
    else (tied, EmptyString).
Proof.
  intros d. unfold compare. fold d.
  destruct (gtb d (of_Z 5)); [reflexivity |].
  destruct (gtb d (of_Z 2)); [reflexivity |].
  destruct (ltb d (of_Z (-5))); [reflexivity |].
  destruct (ltb d (of_Z (-2))); reflexivity.
Qed.

Lemma labels_split (c : comparison) (b dm : string) :
  (better_team c, dominance c) = (b, dm) -> better_team c = b /\ dominance c = dm.
Proof. intros H. now inversion H. Qed.

(** A float below a negative bound is above no positive bound. *)
Lemma below_negative_not_above d lo hi :
  is_negative lo = true -> is_positive hi = true ->
  ltb d lo = true -> gtb d hi = false.
Proof.
  intros Hlo Hhi Hd. unfold gtb.
  apply positive_not_ltb_negative; [exact Hhi |].
  exact (ltb_negative d lo Hlo Hd).
Qed.

(** C2. On the signed difference [d = home.total - away.total] the
    comparator names the home team with "claramente" (clear) when [d > 5]
    and with "ligeramente" (slight) when [2 < d <= 5]; the away team with
    "claramente" when [d < -5] and with "ligeramente" when [-5 <= d < -2];
    and otherwise the tied sentinel with the empty dominance label. With the
    totals 107.0 and 102.0 (difference 5.0) the label is "ligeramente", with
    108.0 and 102.0 (difference 6.0) it is "claramente", the home team being
    named both times. *)
Theorem compare_thresholds (info : match_info) (h a : CPSBreakdown) :
  let d := total h - total a in
  let c := compare info h a in
  (gtb d (of_Z 5) = true ->
     better_team c = home_team info /\ dominance c = "claramente")
  /\ (gtb d (of_Z 2) = true -> leb d (of_Z 5) = true ->
     better_team c = home_team info /\ dominance c = "ligeramente")
  /\ (ltb d (of_Z (-5)) = true ->
     better_team c = away_team info /\ dominance c = "claramente")
  /\ (leb (of_Z (-5)) d = true -> ltb d (of_Z (-2)) = true ->
     better_team c = away_team info /\ dominance c = "ligeramente")
  /\ (gtb d (of_Z 5) = false ->
      gtb d (of_Z 2) && leb d (of_Z 5) = false ->
      ltb d (of_Z (-5)) = false ->
      leb (of_Z (-5)) d && ltb d (of_Z (-2)) = false ->
     better_team c = tied /\ dominance c = EmptyString)
  /\ (let c5 := compare info (with_total (lit "107.0")) (with_total (lit "102.0")) in
      lit "107.0" - lit "102.0" = lit "5.0"
      /\ better_team c5 = home_team info /\ dominance c5 = "ligeramente")
  /\ (let c6 := compare info (with_total (lit "108.0")) (with_total (lit "102.0")) in
      lit "108.0" - lit "102.0" = lit "6.0"
      /\ better_team c6 = home_team info /\ dominance c6 = "claramente").
Proof.
  intros d c. pose proof (compare_labels info h a) as L. fold d c in L.
  cbv zeta in L.
  split; [| split; [| split; [| split; [| split; [| split]]]]].
  - intros H. apply labels_split. rewrite L, H. reflexivity.
  - intros H2 H5. apply leb_not_gtb in H5. fold (gtb d (of_Z 5)) in H5.
    apply labels_split. rewrite L, H5, H2. reflexivity.
  - intros H. apply labels_split. rewrite L.
    rewrite (below_negative_not_above d (of_Z (-5)) (of_Z 5)) by easy.
    rewrite (below_negative_not_above d (of_Z (-5)) (of_Z 2)) by easy.
    now rewrite H.
  - intros H5 H2. apply labels_split. rewrite L.
    rewrite (below_negative_not_above d (of_Z (-2)) (of_Z 5)) by easy.
    rewrite (below_negative_not_above d (of_Z (-2)) (of_Z 2)) by easy.
    rewrite (leb_not_gtb _ _ H5), H2. reflexivity.
  - intros H5 H25 Hm5 Hm52. apply labels_split. rewrite L, H5, Hm5.
    destruct (gtb d (of_Z 2)) eqn:H2.
    + rewrite (not_gtb_leb d (of_Z 5)) in H25; try easy.
      exact (ltb_not_nan_r _ _ H2).
    + destruct (ltb d (of_Z (-2))) eqn:Hm2; [| reflexivity].
      rewrite (not_gtb_leb (of_Z (-5)) d) in Hm52; try easy.
      exact (ltb_not_nan_l _ _ Hm2).
  - cbv zeta. repeat split; vm_compute; reflexivity.
  - cbv zeta. repeat split; vm_compute; reflexivity.
Qed.

Lemma compare_thresholds_witness :
  let c := compare sample_info (with_total (lit "110.0")) (with_total (lit "90.0")) in
  gtb (lit "110.0" - lit "90.0") (of_Z 5) = true
  /\ better_team c = "Boca" /\ dominance c = "claramente".
Proof.
  split; [vm_compute; reflexivity |].
  apply (proj1 (compare_thresholds sample_info (with_total (lit "110.0"))
                  (with_total (lit "90.0")))).
  vm_compute; reflexivity.
Defined.

(** At a difference of exactly 5.0 the comparator does not answer with the
    tied sentinel: it names the home team, "ligeramente". *)
Lemma compare_five_not_tied :
  let c := compare sample_info (with_total (lit "107.0")) (with_total (lit "102.0")) in
  total (with_total (lit "107.0")) - total (with_total (lit "102.0")) = of_Z 5
  /\ ~ (better_team c = tied /\ dominance c = EmptyString).
Proof.
  split; [vm_compute; reflexivity |].
  intros [H _]. vm_compute in H. discriminate H.
Qed.

(** C3, as the code has it. At a signed difference of exactly +2 or -2 the
    comparator answers with the tied sentinel and the empty dominance label;
    at exactly +5 it names the home team and at exactly -5 the away team,
    both with "ligeramente" (slight). *)
Theorem compare_boundaries (info : match_info) (h a : CPSBreakdown) :
  let d := total h - total a in
  let c := compare info h a in
  (d = of_Z 2 \/ d = of_Z (-2) ->
     better_team c = tied /\ dominance c = EmptyString)
  /\ (d = of_Z 5 ->
     better_team c = home_team info /\ dominance c = "ligeramente")
  /\ (d = of_Z (-5) ->
     better_team c = away_team info /\ dominance c = "ligeramente").
Proof.
  intros d c. pose proof (compare_labels info h a) as L. fold d c in L.
  cbv zeta in L.
  split; [| split]; intros H; apply labels_split; rewrite L;
    try destruct H as [H|H]; rewrite H; reflexivity.
Qed.

Lemma compare_boundaries_witness :
  let c := compare sample_info (with_total (lit "104.0")) (with_total (lit "102.0")) in
  lit "104.0" - lit "102.0" = of_Z 2
  /\ better_team c = tied /\ dominance c = EmptyString.
Proof.
  split; [vm_compute; reflexivity |].
  apply (proj1 (compare_boundaries sample_info (with_total (lit "104.0"))
                  (with_total (lit "102.0")))).
  left. vm_compute. reflexivity.
Defined.

End Comparator.

(* ===================================================================== *)
(** * Value cleaning: [_clean_stat_value] *)
(* ===================================================================== *)

Section Cleaning.

Import Float64.

Lemma replace_absent (c : ascii) (new s : string) :
  PyStr.contains c s = false -> PyStr.replace c new s = s.
Proof.
  induction s as [|c' s IH]; simpl; [reflexivity |].
  intros H. apply orb_false_iff in H as [Hc Hs].
  rewrite Hc. now rewrite IH.
Qed.

Lemma replace_removes (c : ascii) (s : string) :
  PyStr.contains c (PyStr.replace c EmptyString s) = false.
Proof.
  induction s as [|c' s IH]; simpl; [reflexivity |].
  destruct (Ascii.eqb c' c) eqn:E; simpl; [exact IH |].
  now rewrite E, IH.
Qed.

(** C4. [_clean_stat_value] maps [None] to 0.0; a string to the float
    parse of the string with every '%' removed and the surrounding white
    space trimmed, or to 0.0 when that parse fails: so "55%" gives 55.0 and
    "N/A" gives 0.0, and a string without '%' gives its own (trimmed) float
    parse or 0.0; a float to itself, so that cleaning a cleaned value leaves
    it unchanged; and an integer to its float cast. *)
Theorem clean_stat_value_cases :
  _clean_stat_value RNone = Ok (lit "0.0")
  /\ (forall s,
       _clean_stat_value (RStr s)
       = Ok (default (lit "0.0")
               (PyStr.float_of_string (PyStr.strip (PyStr.replace "%" "" s))))
       /\ PyStr.contains "%" (PyStr.replace "%" "" s) = false)
  /\ (forall s, PyStr.contains "%" s = false ->
       _clean_stat_value (RStr s)
       = Ok (default (lit "0.0") (PyStr.float_of_string (PyStr.strip s))))
  /\ _clean_stat_value (RStr "55%") = Ok (lit "55.0")
  /\ _clean_stat_value (RStr "N/A") = Ok (lit "0.0")
  /\ (forall f, _clean_stat_value (RFloat f) = Ok f)
  /\ (forall v f, _clean_stat_value v = Ok f -> _clean_stat_value (RFloat f) = Ok f)
  /\ (forall z, _clean_stat_value (RInt z) = float_of_int z)
  /\ _clean_stat_value (RInt 7) = Ok (lit "7.0").
Proof.
  assert (Hstr : forall s,
    _clean_stat_value (RStr s)
    = Ok (default (lit "0.0")
            (PyStr.float_of_string (PyStr.strip (PyStr.replace "%" "" s))))).
  { intros s. unfold _clean_stat_value.
    destruct (PyStr.float_of_string _); reflexivity. }
  split; [reflexivity |].
  split; [intros s; split; [apply Hstr | apply replace_removes] |].
  split; [intros s H; rewrite Hstr, (replace_absent _ _ _ H); reflexivity |].
  split; [vm_compute; reflexivity |].
  split; [vm_compute; reflexivity |].
  split; [reflexivity |].
  split; [reflexivity |].
  split; [reflexivity |].
  vm_compute; reflexivity.
Qed.

Lemma clean_stat_value_cases_witness :
  PyStr.contains "%" " 12.5 " = false
  /\ _clean_stat_value (RStr " 12.5 ") = Ok (lit "12.5").
Proof.
  split; [reflexivity |].
  rewrite (proj1 (proj2 (proj2 clean_stat_value_cases)) " 12.5 " eq_refl).
  vm_compute. reflexivity.
Defined.

End Cleaning.

(* ===================================================================== *)
(** * The weight table and [__init__] *)
(* ===================================================================== *)

Section Weights.

Import Float64.

Lemma init_lookup (w : gmap string float) (st : class_state) (k : string) :
  size w <> 0%nat ->
  cls_WEIGHTS (init (Some w) st).2 !! k
  = match w !! k with
    | Some x => Some x
    | None => cls_WEIGHTS st !! k
    end.
Proof.
  intros Hw. unfold init. rewrite bool_decide_eq_false_2 by exact Hw. simpl.
  rewrite lookup_union. destruct (w !! k), (cls_WEIGHTS st !! k); reflexivity.
Qed.

Lemma init_without_weights (st : class_state) :
  (init None st).2 = st /\ (init (Some ∅) st).2 = st.
Proof. split; reflexivity. Qed.

(** C5. The constructor merges a non-empty override into the eleven
    default weights key by key: an overridden key takes the new weight and
    every other key keeps the weight it had. The merge is done in the one
    dictionary of the class, which every instance reads: constructing a
    second instance with another override changes the weight table, and the
    [calculate_cps] results, of the instance constructed first. *)
Theorem weights_shared_between_instances :
  size WEIGHTS = 11%nat
  /\ (forall (w : gmap string float) st k, size w <> 0%nat ->
       cls_WEIGHTS (init (Some w) st).2 !! k
       = match w !! k with
         | Some x => Some x
         | None => cls_WEIGHTS st !! k
         end)
  /\ (forall (first second : agent) st, self_WEIGHTS first st = self_WEIGHTS second st)
  /\ (let '(first, st1) := init (Some override_fouls_1) initial_state in
      let '(second, st2) := init (Some override_fouls_2) st1 in
      self_WEIGHTS first st1 !! "fouls" = Some (opp (lit "1.0"))
      /\ self_WEIGHTS first st2 !! "fouls" = Some (opp (lit "2.0"))
      /\ self_WEIGHTS first st1 !! "possession" = Some (lit "0.4")
      /\ self_WEIGHTS first st2 !! "possession" = Some (lit "0.4")
      /\ calculate_cps first st1 sample_stats
         = Ok {| threat := lit "15.0"; control := lit "22.0";
                 friction := opp (lit "12.0"); total := lit "25.0" |}
      /\ calculate_cps first st2 sample_stats
         = Ok {| threat := lit "15.0"; control := lit "22.0";
                 friction := opp (lit "24.0"); total := lit "13.0" |}
      /\ calculate_cps first st1 sample_stats <> calculate_cps first st2 sample_stats).
Proof.
  split; [exact WEIGHTS_size |].
  split; [exact init_lookup |].
  split; [reflexivity |].
  vm_compute. repeat split.
  intros H. discriminate H.
Qed.

End Weights.

(* ===================================================================== *)
(** * Statistics parsing: [parse_statistics] *)
(* ===================================================================== *)

Section Parsing.

Import Float64.

Lemma cleaned_empty : cleaned ∅.
Proof. apply map_Forall_empty. Qed.

Lemma cleaned_insert_num (rec : stat_record) k f :
  cleaned rec -> cleaned (<[k := SNum f]> rec).
Proof. intros H. apply map_Forall_insert_2; [now right | exact H]. Qed.

Lemma cleaned_insert_team_name (rec : stat_record) t :
  cleaned rec -> cleaned (<["team_name" := SText t]> rec).
Proof. intros H. apply map_Forall_insert_2; [now left | exact H]. Qed.

Lemma clean_convertible (v : raw_value) :
  convertible v = true -> exists f, _clean_stat_value v = Ok f.
Proof.
  destruct v as [|b|z|f|s|]; simpl; intros H; try discriminate; eauto.
  - unfold float_of_int. rewrite H. eauto.
  - destruct (PyStr.float_of_string _); eauto.
Qed.

Lemma parse_block_ok (stats : list stat_entry) (rec : stat_record) :
  forallb (fun e => convertible (entry_value e)) stats = true ->
  cleaned rec ->
  exists rec', parse_block stats rec = Ok rec' /\ cleaned rec'.
Proof.
  revert rec. induction stats as [|e stats IH]; intros rec Hs Hc;
    cbn [parse_block].
  - eauto.
  - cbn [forallb] in Hs. apply andb_true_iff in Hs as [He Hs].
    destruct (clean_convertible _ He) as [f Hf]. unfold entry_value in Hf.
    rewrite Hf, bind_Ok. apply IH; [exact Hs | now apply cleaned_insert_num].
Qed.

Lemma write_block_ok key (b : team_block) (rec : stat_record) :
  forallb (fun e => convertible (entry_value e)) (block_entries b) = true ->
  cleaned rec ->
  exists rec', write_block key b rec = Ok rec' /\ cleaned rec'.
Proof.
  intros Hb Hc. unfold write_block.
  destruct (parse_block_ok _ _ Hb Hc) as (rec' & -> & Hc').
  rewrite bind_Ok. eexists; split; [reflexivity |].
  now apply cleaned_insert_team_name.
Qed.

(** One turn of the outer loop writes one block into the record of its side. *)
Lemma parse_blocks_step i (b : team_block) rest res :
  parse_blocks i (b :: rest) res
  = let key := if (i =? 0)%nat then Home else Away in
    rec ← write_block key b (get_side key res);
    parse_blocks (S i) rest (set_side key rec res).
Proof.
  simpl. unfold write_block, block_entries.
  destruct (parse_block _ _); reflexivity.
Qed.

(** After the first turn every block goes to the away record. *)
Lemma parse_blocks_away i (bs : list team_block) res :
  parse_blocks (S i) bs res
  = a ← write_blocks Away bs (away res); Ok {| home := home res; away := a |}.
Proof.
  revert i res. induction bs as [|b bs IH]; intros i res.
  - destruct res; reflexivity.
  - rewrite parse_blocks_step. cbn [Nat.eqb get_side set_side write_blocks].
    destruct (write_block Away b (away res)) as [rec|e]; [| reflexivity].
    rewrite !bind_Ok, IH. reflexivity.
Qed.

Lemma parse_block_app (ss ts : list stat_entry) (rec : stat_record) :
  parse_block (ss ++ ts) rec = rec' ← parse_block ss rec; parse_block ts rec'.
Proof.
  revert rec. induction ss as [|e ss IH]; intros rec;
    cbn [parse_block app]; [reflexivity |].
  destruct (_clean_stat_value _); [rewrite !bind_Ok; apply IH | reflexivity].
Qed.

Lemma write_blocks_app key (bs cs : list team_block) rec :
  write_blocks key (bs ++ cs) rec
  = rec' ← write_blocks key bs rec; write_blocks key cs rec'.
Proof.
  revert rec. induction bs as [|b bs IH]; intros rec; simpl; [reflexivity |].
  destruct (write_block key b rec); simpl; [apply IH | reflexivity].
Qed.

Lemma write_blocks_ok key (bs : list team_block) rec :
  forallb (fun b => forallb (fun e => convertible (entry_value e)) (block_entries b)) bs
  = true ->
  cleaned rec ->
  exists rec', write_blocks key bs rec = Ok rec' /\ cleaned rec'.
Proof.
  revert rec. induction bs as [|b bs IH]; intros rec Hb Hc; simpl.
  - eauto.
  - simpl in Hb. apply andb_true_iff in Hb as [Hb Hbs].
    destruct (write_block_ok key b rec Hb Hc) as (rec' & -> & Hc').
    rewrite bind_Ok. now apply IH.
Qed.

(** With two blocks or more, the first is written to the home record and
    all the others, in turn, to the away record. *)
Lemma parse_statistics_blocks (b0 b1 : team_block) (rest : list team_block) :
  parse_statistics (Some (b0 :: b1 :: rest))
  = ([], h ← write_block Home b0 ∅;
         a ← write_blocks Away (b1 :: rest) ∅;
         Ok {| home := h; away := a |}).
Proof.
  unfold parse_statistics.
  replace (bool_decide (b0 :: b1 :: rest = []) || (length (b0 :: b1 :: rest) <? 2)%nat)
    with false by reflexivity.
  rewrite parse_blocks_step. cbn [Nat.eqb get_side set_side empty_stats home away].
  destruct (write_block Home b0 ∅) as [h|e]; [| reflexivity].
  rewrite !bind_Ok, parse_blocks_away. reflexivity.
Qed.

(** C10. Given more than two blocks (indeed two or more),
    [parse_statistics] prints no warning and rejects nothing: the first block
    is written to the home record and every later block, in order, to the one
    away record, where a later block overwrites the statistics it shares
    with an earlier block and the team name, the last block's name being the
    one that stays. *)
Theorem parse_statistics_extra_blocks
  (b0 b1 b2 : team_block) (rest : list team_block) :
  parse_statistics (Some (b0 :: b1 :: b2 :: rest))
  = ([], h ← write_block Home b0 ∅;
         a1 ← write_block Away b1 ∅;
         a ← write_blocks Away (b2 :: rest) a1;
         Ok {| home := h; away := a |})
  /\ (forall (bs : list team_block) (b : team_block) (rec : stat_record),
       match write_blocks Away (bs ++ [b]) rec with
       | Ok a => a !! "team_name" = Some (SText (block_team_name b Away))
       | Raise _ => True
       end)
  /\ (forall (b : team_block) (ss : list stat_entry) (e : stat_entry)
             (rec : stat_record),
       block_entries b = ss ++ [e] ->
       internal_name (default EmptyString (st_type e)) <> "team_name" ->
       match write_block Away b rec, _clean_stat_value (entry_value e) with
       | Ok a, Ok x =>
           a !! internal_name (default EmptyString (st_type e)) = Some (SNum x)
       | _, _ => True
       end)
  /\ parse_statistics three_blocks
     = ([], Ok {| home := dict_of [("fouls", SNum (lit "12.0"));
                                   ("team_name", SText "Boca")];
                  away := dict_of [("fouls", SNum (lit "20.0"));
                                   ("offsides", SNum (lit "2.0"));
                                   ("possession", SNum (lit "61.0"));
                                   ("team_name", SText "Racing")] |}).
Proof.
  split; [| split; [| split]].
  - rewrite parse_statistics_blocks. cbn [write_blocks].
    destruct (write_block Home b0 ∅); [| reflexivity].
    rewrite !bind_Ok. destruct (write_block Away b1 ∅); reflexivity.
  - intros bs b rec. rewrite write_blocks_app.
    destruct (write_blocks Away bs rec) as [rec'|]; [| exact I].
    rewrite bind_Ok. cbn [write_blocks]. unfold write_block.
    destruct (parse_block _ rec') as [rec''|]; [| exact I].
    rewrite !bind_Ok. apply lookup_insert_eq.
  - intros b ss e rec Hb Hne. unfold write_block. rewrite Hb.
    rewrite parse_block_app.
    destruct (parse_block ss rec) as [rec'|]; [| exact I].
    rewrite bind_Ok. cbn [parse_block]. fold (entry_value e).
    destruct (_clean_stat_value (entry_value e)) as [x|]; [| exact I].
    rewrite !bind_Ok. rewrite lookup_insert_ne by congruence.
    apply lookup_insert_eq.
  - vm_compute. reflexivity.
Qed.

Lemma parse_statistics_extra_blocks_witness :
  let b := block "Racing" [entry "Fouls" (RInt 20); entry "Ball Possession" (RStr "61%")] in
  block_entries b = [entry "Fouls" (RInt 20)] ++ [entry "Ball Possession" (RStr "61%")]
  /\ internal_name "Ball Possession" <> "team_name"
  /\ match write_block Away b ∅ with
     | Ok a => a !! "possession" = Some (SNum (lit "61.0"))
     | Raise _ => False
     end.
Proof.
  intros b. split; [reflexivity |]. split; [vm_compute; discriminate |].
  pose proof (proj1 (proj2 (proj2
    (parse_statistics_extra_blocks b b b []))) b
    [entry "Fouls" (RInt 20)] (entry "Ball Possession" (RStr "61%")) ∅
    eq_refl ltac:(vm_compute; discriminate)) as H.
  vm_compute in H. vm_compute. exact H.
Defined.

(** C7. For every payload with fewer than two team blocks (an empty list
    and Python's [None] included, and so a document without the list)
    [parse_statistics] prints the warning and returns two empty records, and
    [calculate_cps] of an empty record is the breakdown whose four numbers
    all equal zero. *)
Theorem fewer_than_two_blocks (stats_data : option (list team_block)) :
  (blocks_count stats_data < 2)%nat ->
  parse_statistics stats_data = ([incomplete_warning], Ok empty_stats)
  /\ home empty_stats = ∅ /\ away empty_stats = ∅
  /\ (forall self st data, md_statistics data = None ->
       (analyze_match self st data).1 = [incomplete_warning])
  /\ exists b, calculate_cps Agent initial_state ∅ = Ok b
       /\ is_zero_value (threat b) = true /\ is_zero_value (control b) = true
       /\ is_zero_value (friction b) = true /\ is_zero_value (total b) = true
       /\ b = {| threat := pzero; control := pzero; friction := nzero;
                 total := pzero |}.
Proof.
  intros H. split; [| split; [reflexivity | split; [reflexivity | split]]].
  - destruct stats_data as [[|b0 [|b1 l]]|]; simpl in H; try lia; reflexivity.
  - intros self st data Hd. unfold analyze_match. rewrite Hd. reflexivity.
  - eexists. split; [vm_compute; reflexivity |]. repeat split.
Qed.

Lemma fewer_than_two_blocks_witness :
  let one := Some [block "Boca" [entry "Fouls" (RInt 12)]] in
  (blocks_count one < 2)%nat
  /\ parse_statistics one = ([incomplete_warning], Ok empty_stats).
Proof.
  intros one. split; [simpl; lia |].
  apply (fewer_than_two_blocks one). simpl; lia.
Defined.

(** The class dictionary always holds the eleven weights the score reads. *)
Lemma reachable_has_weights (st : class_state) :
  reachable st -> Forall (fun k => is_Some (cls_WEIGHTS st !! k)) scored_keys.
Proof.
  induction 1 as [|weights st _ IH].
  - repeat constructor; eexists; vm_compute; reflexivity.
  - unfold init. destruct weights as [w|]; [| exact IH].
    destruct (bool_decide (size w = 0%nat)); [exact IH |]. cbn [snd cls_WEIGHTS].
    eapply Forall_impl; [exact IH |]. intros k Hk. cbv beta in Hk |- *.
    apply lookup_union_is_Some. now right.
Qed.

Lemma weighted_ok (W : gmap string float) (stats : stat_record) k :
  cleaned stats -> k <> "team_name" -> is_Some (W !! k) ->
  exists x, weighted W stats k = Ok x.
Proof.
  intros Hc Hk [w Hw]. erewrite weighted_cleaned by eassumption. eauto.
Qed.

Lemma calculate_cps_ok (self : agent) (st : class_state) (stats : stat_record) :
  Forall (fun k => is_Some (cls_WEIGHTS st !! k)) scored_keys ->
  cleaned stats ->
  exists b, calculate_cps self st stats = Ok b.
Proof.
  intros HW Hc. unfold scored_keys in HW.
  repeat match type of HW with
  | Forall _ (_ :: _) => apply Forall_cons in HW as [? HW]
  end.
  unfold calculate_cps, self_WEIGHTS.
  repeat match goal with
  | Hk : is_Some (cls_WEIGHTS st !! ?k) |- context [weighted (cls_WEIGHTS st) stats ?k] =>
      let x := fresh "x" in let Hx := fresh "Hx" in
      destruct (weighted_ok (cls_WEIGHTS st) stats k Hc ltac:(discriminate) Hk)
        as [x Hx];
      rewrite Hx, bind_Ok; clear Hk
  end.
  eauto.
Qed.

Lemma forallb_entry_values (p : raw_value -> bool) (es : list stat_entry) :
  forallb p (map entry_value es) = forallb (fun e => p (entry_value e)) es.
Proof. induction es as [|e es IH]; simpl; [reflexivity | now rewrite IH]. Qed.

(** An integer of 309 digits is a number, and [parse_statistics] raises
    [OverflowError] on a payload that carries it. *)
Lemma parse_statistics_overflow :
  forallb number_string_or_null (payload_values overflow_payload) = true
  /\ (parse_statistics overflow_payload).2 = Raise OverflowError.
Proof. split; vm_compute; reflexivity. Qed.

(** C6, as the code has it. When every raw statistic value is null, a
    string, a float, a Boolean, or an integer of magnitude below
    2^1024 - 2^970 (the integers [float] converts), the score engine does
    not raise: [parse_statistics] returns its two records, and
    [calculate_cps] returns a breakdown for each of them, whatever instances
    were constructed before. *)
Theorem score_engine_total
  (self : agent) (st : class_state) (stats_data : option (list team_block)) :
  reachable st ->
  forallb convertible (payload_values stats_data) = true ->
  exists r, (parse_statistics stats_data).2 = Ok r
    /\ (exists b, calculate_cps self st (home r) = Ok b)
    /\ (exists b, calculate_cps self st (away r) = Ok b).
Proof.
  intros Hst Hp. pose proof (reachable_has_weights st Hst) as HW.
  assert (Hempty : exists r, Ok empty_stats = Ok r
    /\ (exists b, calculate_cps self st (home r) = Ok b)
    /\ (exists b, calculate_cps self st (away r) = Ok b)).
  { exists empty_stats. split; [reflexivity |].
    split; apply calculate_cps_ok; auto using cleaned_empty. }
  destruct stats_data as [[|b0 [|b1 rest]]|]; try exact Hempty.
  rewrite parse_statistics_blocks. cbn [snd].
  assert (Hall : forallb (fun b => forallb (fun e => convertible (entry_value e))
                                    (block_entries b)) (b0 :: b1 :: rest) = true).
  { clear -Hp. unfold payload_values in Hp. revert Hp.
    generalize (b0 :: b1 :: rest). intros l. induction l as [|b l IH]; simpl.
    - reflexivity.
    - rewrite forallb_app, forallb_entry_values. intros H.
      apply andb_true_iff in H as [H1 H2]. now rewrite H1, IH. }
  cbn [forallb] in Hall. apply andb_true_iff in Hall as [H0 Hrest].
  destruct (write_block_ok Home b0 ∅ H0 cleaned_empty) as (h & -> & Hh).
  rewrite bind_Ok.
  destruct (write_blocks_ok Away (b1 :: rest) ∅ Hrest cleaned_empty) as (a & -> & Ha).
  rewrite bind_Ok. eexists. split; [reflexivity |].
  split; apply calculate_cps_ok; assumption.
Qed.

Lemma score_engine_total_witness :
  reachable initial_state
  /\ forallb convertible (payload_values three_blocks) = true
  /\ exists r, (parse_statistics three_blocks).2 = Ok r
       /\ (exists b, calculate_cps Agent initial_state (home r) = Ok b)
       /\ (exists b, calculate_cps Agent initial_state (away r) = Ok b).
Proof.
  split; [exact reachable_initial |]. split; [vm_compute; reflexivity |].
  apply (score_engine_total Agent initial_state three_blocks reachable_initial).
  vm_compute; reflexivity.
Defined.

End Parsing.

(* ===================================================================== *)
(** * Label translation: [STAT_MAPPING] *)
(* ===================================================================== *)

Section Labels.

Lemma STAT_MAPPING_size : size STAT_MAPPING = 16%nat.
Proof. vm_compute. reflexivity. Qed.

(** The table does not have 14 entries. *)
Lemma STAT_MAPPING_not_14 : size STAT_MAPPING <> 14%nat.
Proof. rewrite STAT_MAPPING_size. discriminate. Qed.

Lemma lower_char_space (c : ascii) :
  Ascii.eqb (PyStr.lower_char c) " " = Ascii.eqb c " ".
Proof.
  destruct c as [[] [] [] [] [] [] [] []]; vm_compute; reflexivity.
Qed.

Lemma replace_lower_chars (s : string) :
  PyStr.replace " " "_" (PyStr.lower s) = map_chars normalize_char s.
Proof.
  induction s as [|c s IH]; [reflexivity |].
  cbn [PyStr.lower PyStr.replace map_chars]. unfold normalize_char at 1.
  rewrite lower_char_space, IH. destruct (Ascii.eqb c " "); reflexivity.
Qed.

Lemma map_chars_length f (s : string) :
  String.length (map_chars f s) = String.length s.
Proof. induction s as [|c s IH]; simpl; [reflexivity | now rewrite IH]. Qed.

Lemma normalize_plain (s : string) :
  all_chars plain_char s = true -> map_chars normalize_char s = s.
Proof.
  induction s as [|c s IH]; [reflexivity |].
  cbn [all_chars map_chars]. intros H. apply andb_true_iff in H as [Hc Hs].
  rewrite (IH Hs). f_equal. unfold plain_char in Hc.
  apply andb_true_iff in Hc as [H1 H2].
  unfold normalize_char, PyStr.lower_char.
  apply negb_true_iff in H1, H2. now rewrite H1, H2.
Qed.

(** C8, as the code has it. A label of the fixed lookup table, which has
    exactly 16 entries, is translated to its canonical internal name; every
    other label is lower-cased and has its spaces replaced by underscores,
    character by character, and is otherwise passed through unchanged. *)
Theorem label_translation :
  size STAT_MAPPING = 16%nat
  /\ (forall label canonical, STAT_MAPPING !! label = Some canonical ->
       internal_name label = canonical)
  /\ (forall label, STAT_MAPPING !! label = None ->
       internal_name label = PyStr.replace " " "_" (PyStr.lower label)
       /\ internal_name label = map_chars normalize_char label
       /\ String.length (internal_name label) = String.length label
       /\ (all_chars plain_char label = true -> internal_name label = label))
  /\ internal_name "Ball Possession" = "possession"
  /\ internal_name "Passes %" = "pass_accuracy"
  /\ internal_name "Expected Goals" = "expected_goals"
  /\ internal_name "expected_goals" = "expected_goals".
Proof.
  split; [exact STAT_MAPPING_size |].
  split; [intros label canonical H; unfold internal_name; now rewrite H |].
  split; [| repeat split; vm_compute; reflexivity].
  intros label H. unfold internal_name. rewrite H. cbn [default].
  rewrite replace_lower_chars, map_chars_length.
  repeat split. apply normalize_plain.
Qed.

Lemma label_translation_witness :
  STAT_MAPPING !! "Expected Goals" = None
  /\ internal_name "Expected Goals" = map_chars normalize_char "Expected Goals".
Proof.
  split; [vm_compute; reflexivity |].
  apply (proj1 (proj2 (proj2 label_translation)) "Expected Goals").
  vm_compute; reflexivity.
Defined.

End Labels.

(* ===================================================================== *)
(** * The verdict: [_generate_verdict] *)
(* ===================================================================== *)

Section Verdict.

Import Float64.

Lemma append_nonempty_r (s t : string) : t <> EmptyString -> s +:+ t <> EmptyString.
Proof. destruct s; simpl; [auto | discriminate]. Qed.

Lemma verdict_text_nonempty (v : verdict) : verdict_text v <> EmptyString.
Proof.
  destruct v; cbn [verdict_text]; try discriminate.
  apply append_nonempty_r. discriminate.
Qed.

Lemma select_verdict_not_completed info cmp h a :
  select_verdict info cmp h a <> Completed.
Proof.
  unfold select_verdict.
  destruct (home_goals info >? away_goals info);
    [| destruct (away_goals info >? home_goals info)];
    cbn [default truthy winner_is];
    try destruct (home_team info) as [|c s]; try destruct (away_team info) as [|c' s'];
    cbn [andb negb];
    repeat match goal with
    | |- context [if ?b then _ else _] => destruct b; cbn [andb negb]
    end; discriminate.
Qed.

(** C9. Whatever the goals, the team names and the result of the
    comparator, [_generate_verdict] returns by one of the five verdict
    branches (deserved win, close game with a winner, unjust result, fair
    draw, draw underselling the better team), never by the closing
    "no verdict" statement, and its text is not empty. With non-empty team
    names that differ from the tied sentinel, each of the nine combinations
    of goal outcome and comparator result has its branch. *)
Theorem generate_verdict_total
  (info : match_info) (cmp : comparison) (h a : CPSBreakdown) :
  select_verdict info cmp h a <> Completed
  /\ _generate_verdict info cmp h a <> EmptyString
  /\ (0 < String.length (_generate_verdict info cmp h a))%nat
  /\ (home_team info <> EmptyString -> away_team info <> EmptyString ->
      home_team info <> away_team info ->
      home_team info <> tied -> away_team info <> tied ->
      better_team cmp = home_team info \/ better_team cmp = away_team info
        \/ better_team cmp = tied ->
      let d := difference cmp in
      select_verdict info cmp h a
      = match outcome_of info with
        | HomeWins =>
            if String.eqb (better_team cmp) (home_team info)
            then Deserved (home_team info) (total h) d
            else if String.eqb (better_team cmp) tied
            then CloseGame (home_team info) d
            else Unjust (away_team info) (total a) d (home_team info)
        | AwayWins =>
            if String.eqb (better_team cmp) (away_team info)
            then Deserved (away_team info) (total a) d
            else if String.eqb (better_team cmp) tied
            then CloseGame (away_team info) d
            else Unjust (home_team info) (total h) d (away_team info)
        | Draw =>
            if String.eqb (better_team cmp) tied then FairDraw
            else DrawUndersells (better_team cmp) d
        end).
Proof.
  split; [apply select_verdict_not_completed |].
  split; [apply verdict_text_nonempty |].
  split.
  { pose proof (verdict_text_nonempty (select_verdict info cmp h a)) as H.
    unfold _generate_verdict. destruct (verdict_text _); [congruence | simpl; lia]. }
  intros Hh Ha Hne Hht Hat Hb d. subst d.
  unfold select_verdict, outcome_of.
  destruct (home_team info) as [|c s] eqn:Eh; [congruence |].
  destruct (away_team info) as [|c' s'] eqn:Ea; [congruence |].
  apply String.eqb_neq in Hne, Hht, Hat.
  destruct (home_goals info >? away_goals info);
    [| destruct (away_goals info >? home_goals info)];
    cbn [default truthy winner_is andb negb];
    destruct Hb as [Hb | [Hb | Hb]]; rewrite Hb;
    rewrite ?String.eqb_refl, ?Hne, ?Hht, ?Hat;
    try rewrite (String.eqb_sym (String c' s') (String c s)), Hne;
    try rewrite (String.eqb_sym tied (String c s)), Hht;
    try rewrite (String.eqb_sym tied (String c' s')), Hat;
    cbn [andb negb]; reflexivity.
Qed.

Lemma generate_verdict_total_witness :
  let cmp := compare sample_info (with_total (lit "120.5")) (with_total (lit "95.2")) in
  home_team sample_info <> EmptyString
  /\ select_verdict sample_info cmp (with_total (lit "120.5")) (with_total (lit "95.2"))
     = Deserved "Boca" (lit "120.5") (difference cmp)
  /\ _generate_verdict sample_info cmp (with_total (lit "120.5")) (with_total (lit "95.2"))
     = "Boca gano y merecio el triunfo. Su CPS de 120.5 fue superior por 25.3 puntos.".
Proof.
  intros cmp. split; [discriminate |]. split.
  - rewrite (proj2 (proj2 (proj2 (generate_verdict_total sample_info cmp
      (with_total (lit "120.5")) (with_total (lit "95.2"))))));
      try (vm_compute; discriminate); [vm_compute; reflexivity | left; vm_compute; reflexivity].
  - vm_compute. reflexivity.
Defined.

(** The away team wins 0-1 while the home team has the better score. *)
Example verdict_unjust :
  let info := {| fixture_id := None; home_team := "Boca"; away_team := "River";
                 home_goals := 0; away_goals := 1; date := EmptyString |} in
  let h := with_total (lit "110.0") in
  let a := with_total (lit "90.0") in
  _generate_verdict info (compare info h a) h a
  = "Resultado injusto! Boca fue el mejor equipo con un CPS de 110.0, superior por 20.0 puntos, pero River se llevo la victoria. El futbol a veces no premia al mejor.".
Proof. vm_compute. reflexivity. Qed.

(** A 1-1 draw with scores 100.0 and 100.3. *)
Example verdict_fair_draw :
  let info := {| fixture_id := None; home_team := "Boca"; away_team := "River";
                 home_goals := 1; away_goals := 1; date := EmptyString |} in
  let h := with_total (lit "100.0") in
  let a := with_total (lit "100.3") in
  _generate_verdict info (compare info h a) h a
  = "Empate justo. Ambos equipos rindieron de manera similar.".
Proof. vm_compute. reflexivity. Qed.

End Verdict.

(* ===================================================================== *)
(** * Further properties of the parser *)
(* ===================================================================== *)

Section Parsing_more.

Import Float64.

Lemma parse_block_cleaned (ss : list stat_entry) (rec r : stat_record) :
  parse_block ss rec = Ok r -> cleaned rec -> cleaned r.
Proof.
  revert rec. induction ss as [|e ss IH]; intros rec; cbn [parse_block].
  - intros [= <-]. auto.
  - destruct (_clean_stat_value _) as [x|]; [| discriminate].
    rewrite bind_Ok. intros H Hc. apply (IH _ H). now apply cleaned_insert_num.
Qed.

Lemma write_block_cleaned key (b : team_block) (rec r : stat_record) :
  write_block key b rec = Ok r ->
  cleaned rec ->
  cleaned r /\ r !! "team_name" = Some (SText (block_team_name b key)).
Proof.
  unfold write_block. destruct (parse_block _ rec) as [rec'|] eqn:E; [| discriminate].
  rewrite bind_Ok. intros [= <-] Hc. split.
  - apply cleaned_insert_team_name. exact (parse_block_cleaned _ _ _ E Hc).
  - apply lookup_insert_eq.
Qed.

Lemma write_blocks_cleaned key (bs : list team_block) (rec r : stat_record) :
  write_blocks key bs rec = Ok r -> cleaned rec -> cleaned r.
Proof.
  revert rec. induction bs as [|b bs IH]; intros rec; cbn [write_blocks].
  - intros [= <-]. auto.
  - destruct (write_block key b rec) as [rec'|] eqn:E; [| discriminate].
    rewrite bind_Ok. intros H Hc. apply (IH _ H).
    exact (proj1 (write_block_cleaned _ _ _ _ E Hc)).
Qed.

(** X1. What a successful [parse_statistics] returns for two blocks or
    more: in both records every entry is a float except ["team_name"],
    which is always present as a text: the name of the first block in the
    home record and the name of the last block in the away record (the
    block's ["team"]["name"], or "home" / "away" when it has none). Hence a
    statistic whose label translates to "team_name" is never visible. *)
Theorem parse_statistics_invariant
  (b0 : team_block) (mid : list team_block) (bn : team_block) (r : parsed_stats) :
  (parse_statistics (Some (b0 :: mid ++ [bn]))).2 = Ok r ->
  cleaned (home r) /\ cleaned (away r)
  /\ home r !! "team_name" = Some (SText (block_team_name b0 Home))
  /\ away r !! "team_name" = Some (SText (block_team_name bn Away)).
Proof.
  destruct (mid ++ [bn]) as [|b1 rest] eqn:E;
    [destruct mid; simpl in E; discriminate E |].
  rewrite parse_statistics_blocks. cbn [snd].
  destruct (write_block Home b0 ∅) as [h|] eqn:Eh; [| discriminate].
  rewrite bind_Ok.
  destruct (write_blocks Away (b1 :: rest) ∅) as [a|] eqn:Ea; [| discriminate].
  rewrite bind_Ok. intros [= <-]. cbn [home away].
  destruct (write_block_cleaned _ _ _ _ Eh cleaned_empty) as [Hh Hn].
  split; [exact Hh |].
  split; [exact (write_blocks_cleaned _ _ _ _ Ea cleaned_empty) |].
  split; [exact Hn |].
  rewrite <- E, write_blocks_app in Ea.
  destruct (write_blocks Away mid ∅) as [a'|]; [| discriminate].
  rewrite bind_Ok in Ea. cbn [write_blocks] in Ea.
  destruct (write_block Away bn a') as [a''|] eqn:En; [| discriminate].
  rewrite bind_Ok in Ea. injection Ea as <-.
  unfold write_block in En. destruct (parse_block _ a'); [| discriminate].
  rewrite bind_Ok in En. injection En as <-. apply lookup_insert_eq.
Qed.

Lemma parse_statistics_invariant_witness :
  exists r, (parse_statistics three_blocks).2 = Ok r
    /\ home r !! "team_name" = Some (SText "Boca")
    /\ away r !! "team_name" = Some (SText "Racing").
Proof.
  destruct (parse_statistics three_blocks).2 as [r|] eqn:E;
    [| vm_compute in E; discriminate E].
  exists r. split; [reflexivity |].
  pose proof (parse_statistics_invariant
    (block "Boca" [entry "Fouls" (RInt 12)])
    [block "River" [entry "Fouls" (RInt 9); entry "Offsides" (RInt 2)]]
    (block "Racing" [entry "Fouls" (RInt 20); entry "Ball Possession" (RStr "61%")])
    r E) as (_ & _ & Hh & Ha).
  split; assumption.
Defined.

Lemma parse_block_cons (e : stat_entry) (ss : list stat_entry) (rec : stat_record) :
  parse_block (e :: ss) rec
  = x ← _clean_stat_value (entry_value e);
    parse_block ss (<[entry_key e := SNum x]> rec).
Proof. reflexivity. Qed.

(** X2. The record one block's list of statistics produces: under a key
    [k] it holds the cleaned value of the last entry whose label translates
    to [k] (so two labels with the same internal name overwrite each other),
    and what the record held before when no entry translates to [k]. *)
Theorem parse_block_lookup (ss : list stat_entry) (rec r : stat_record) (k : string) :
  parse_block ss rec = Ok r ->
  match last_entry k ss with
  | Some e => exists x, _clean_stat_value (entry_value e) = Ok x
                        /\ r !! k = Some (SNum x)
  | None => r !! k = rec !! k
  end.
Proof.
  revert rec. induction ss as [|e ss IH]; intros rec.
  - intros [= <-]. reflexivity.
  - rewrite parse_block_cons.
    remember (_clean_stat_value (entry_value e)) as c eqn:Ex.
    destruct c as [x|]; [| rewrite bind_Raise; intros H; discriminate H].
    symmetry in Ex. rewrite bind_Ok. intros H. specialize (IH _ H).
    unfold last_entry in *. rewrite filter_cons.
    destruct (decide (entry_key e = k)) as [Hk|Hk].
    + rewrite last_cons.
      destruct (last (filter _ ss)) as [e'|]; [exact IH |].
      exists x. split; [exact Ex |]. rewrite IH, Hk. apply lookup_insert_eq.
    + destruct (last (filter _ ss)) as [e'|]; [exact IH |].
      rewrite IH. now apply lookup_insert_ne.
Qed.

Lemma parse_block_lookup_witness :
  let ss := [entry "Fouls" (RInt 9); entry "fouls" (RStr "11"); entry "Offsides" (RInt 2)] in
  exists r, parse_block ss ∅ = Ok r /\ r !! "fouls" = Some (SNum (lit "11.0")).
Proof.
  intros ss. remember (parse_block ss ∅) as p eqn:E. symmetry in E.
  destruct p as [r|]; [| vm_compute in E; discriminate E].
  exists r. split; [reflexivity |].
  pose proof (parse_block_lookup ss ∅ r "fouls" E) as H.
  change (last_entry "fouls" ss) with (Some (entry "fouls" (RStr "11"))) in H.
  destruct H as (x & Hx & Hr). rewrite Hr.
  vm_compute in Hx. injection Hx as <-. reflexivity.
Defined.

End Parsing_more.

(* ===================================================================== *)
(** * Further properties of the score and of the weight table *)
(* ===================================================================== *)

Section Score_more.

Import Float64.

Lemma add_nan_r x : add x nan = nan.
Proof. destruct x; reflexivity. Qed.

Lemma add_nan_l x : add nan x = nan.
Proof. reflexivity. Qed.

Lemma sub_nan_r x : sub x nan = nan.
Proof. destruct x; reflexivity. Qed.

Lemma mul_nan_l x : mul nan x = nan.
Proof. reflexivity. Qed.

(** A successful [calculate_cps] has evaluated its eleven terms. *)
Lemma calculate_cps_inv (self : agent) (st : class_state) (stats : stat_record) b :
  calculate_cps self st stats = Ok b ->
  exists t1 t2 t3 t4 t5 c1 c2 c3 f1 f2 f3,
    let W := cls_WEIGHTS st in
    weighted W stats "shots_on_goal" = Ok t1
    /\ weighted W stats "shots_inside_box" = Ok t2
    /\ weighted W stats "shots_outside_box" = Ok t3
    /\ weighted W stats "corner_kicks" = Ok t4
    /\ weighted W stats "offsides" = Ok t5
    /\ weighted W stats "possession" = Ok c1
    /\ weighted W stats "pass_accuracy" = Ok c2
    /\ weighted W stats "total_passes" = Ok c3
    /\ weighted W stats "fouls" = Ok f1
    /\ weighted W stats "yellow_cards" = Ok f2
    /\ weighted W stats "red_cards" = Ok f3
    /\ b = {| threat := add (add (add (add t1 t2) t3) t4) t5;
              control := add (add c1 c2) c3;
              friction := add (add f1 f2) f3;
              total := add (add (add (add (add (add t1 t2) t3) t4) t5)
                                (add (add c1 c2) c3))
                           (add (add f1 f2) f3) |}.
Proof.
  unfold calculate_cps, self_WEIGHTS. intros H.
  repeat match type of H with
  | mbind _ (weighted ?W ?s ?k) = _ =>
      let E := fresh "E" in
      destruct (weighted W s k) eqn:E;
        [rewrite bind_Ok in H | rewrite bind_Raise in H; discriminate H]
  end.
  injection H as <-. do 11 eexists. cbv zeta. repeat split; reflexivity.
Qed.

Lemma calculate_cps_intro (self : agent) (st : class_state) (stats : stat_record)
  t1 t2 t3 t4 t5 c1 c2 c3 f1 f2 f3 :
  let W := cls_WEIGHTS st in
  weighted W stats "shots_on_goal" = Ok t1 ->
  weighted W stats "shots_inside_box" = Ok t2 ->
  weighted W stats "shots_outside_box" = Ok t3 ->
  weighted W stats "corner_kicks" = Ok t4 ->
  weighted W stats "offsides" = Ok t5 ->
  weighted W stats "possession" = Ok c1 ->
  weighted W stats "pass_accuracy" = Ok c2 ->
  weighted W stats "total_passes" = Ok c3 ->
  weighted W stats "fouls" = Ok f1 ->
  weighted W stats "yellow_cards" = Ok f2 ->
  weighted W stats "red_cards" = Ok f3 ->
  calculate_cps self st stats
  = Ok {| threat := add (add (add (add t1 t2) t3) t4) t5;
          control := add (add c1 c2) c3;
          friction := add (add f1 f2) f3;
          total := add (add (add (add (add (add t1 t2) t3) t4) t5)
                            (add (add c1 c2) c3))
                       (add (add f1 f2) f3) |}.
Proof.
  intros W H1 H2 H3 H4 H5 H6 H7 H8 H9 H10 H11.
  unfold calculate_cps, self_WEIGHTS. fold W.
  rewrite H1, bind_Ok, H2, bind_Ok, H3, bind_Ok, H4, bind_Ok, H5, bind_Ok,
    H6, bind_Ok, H7, bind_Ok, H8, bind_Ok, H9, bind_Ok, H10, bind_Ok, H11, bind_Ok.
  reflexivity.
Qed.

Lemma weighted_insert_stats (W : gmap string float) (stats : stat_record) k v k' :
  k <> k' -> weighted W (<[k := v]> stats) k' = weighted W stats k'.
Proof. intros H. unfold weighted. now rewrite lookup_insert_ne. Qed.

Lemma weighted_delete_stats (W : gmap string float) (stats : stat_record) k k' :
  k <> k' -> weighted W (delete k stats) k' = weighted W stats k'.
Proof. intros H. unfold weighted. now rewrite lookup_delete_ne. Qed.

Ltac split_not_elem H :=
  repeat match type of H with
  | _ ∉ _ :: _ => let H1 := fresh "Hne" in apply not_elem_of_cons in H as [H1 H]
  end.

(** X3. The score reads only its eleven statistics: writing or removing
    any other entry of the record (the team name, "total_shots", an
    unknown label, ...) leaves the result of [calculate_cps], error or
    breakdown, unchanged. *)
Theorem calculate_cps_other_entries
  (self : agent) (st : class_state) (stats : stat_record) (k : string) (v : stat_value) :
  k ∉ scored_keys ->
  calculate_cps self st (<[k := v]> stats) = calculate_cps self st stats
  /\ calculate_cps self st (delete k stats) = calculate_cps self st stats.
Proof.
  intros H. unfold scored_keys in H. split_not_elem H.
  unfold calculate_cps. split.
  - rewrite !weighted_insert_stats by assumption. reflexivity.
  - rewrite !weighted_delete_stats by assumption. reflexivity.
Qed.

Lemma calculate_cps_other_entries_witness :
  ("total_shots" ∉ scored_keys)
  /\ calculate_cps Agent initial_state (<["total_shots" := SText "n/a"]> sample_stats)
     = calculate_cps Agent initial_state sample_stats.
Proof.
  assert (H : "total_shots" ∉ scored_keys)
    by (apply (bool_decide_unpack _); vm_compute; reflexivity).
  split; [exact H |].
  apply (calculate_cps_other_entries Agent initial_state sample_stats
           "total_shots" (SText "n/a") H).
Defined.

Lemma init_singleton (k : string) (w : float) (st : class_state) :
  cls_WEIGHTS (init (Some {[k := w]}) st).2 = {[k := w]} ∪ cls_WEIGHTS st.
Proof.
  unfold init. rewrite bool_decide_eq_false_2; [reflexivity |].
  rewrite map_size_singleton. discriminate.
Qed.

Lemma weighted_override (W : gmap string float) (stats : stat_record) k w k' x :
  weighted W stats k' = Ok x ->
  exists x', weighted ({[k := w]} ∪ W) stats k' = Ok x' /\ (k <> k' -> x' = x).
Proof.
  unfold weighted. rewrite lookup_union.
  destruct (decide (k = k')) as [<-|Hne].
  - rewrite lookup_singleton_eq.
    destruct (W !! k) as [w0|]; [| discriminate]. cbn [union option_union union_with option_union_with].
    destruct (stats !! k) as [[y|t]|]; try discriminate; intros _; eexists;
      (split; [reflexivity | congruence]).
  - rewrite lookup_singleton_ne by exact Hne.
    destruct (W !! k') as [w0|]; [| discriminate]. cbn [union option_union union_with option_union_with].
    intros H. exists x. split; [exact H | reflexivity].
Qed.

(** X4. Overriding one weight changes only the component that weight
    belongs to: after an instance is constructed with the single override
    [{k: w}], [calculate_cps] still succeeds on every record it succeeded
    on, with the same threat unless [k] is a threat weight, the same control
    unless [k] is a control weight, the same friction unless [k] is a
    friction weight, and the same breakdown when [k] is none of the eleven
    weights. *)
Theorem override_changes_only_its_component
  (self : agent) (st : class_state) (stats : stat_record) (k : string) (w : float)
  (b : CPSBreakdown) :
  calculate_cps self st stats = Ok b ->
  exists b', calculate_cps self (init (Some {[k := w]}) st).2 stats = Ok b'
    /\ (k ∉ threat_keys -> threat b' = threat b)
    /\ (k ∉ control_keys -> control b' = control b)
    /\ (k ∉ friction_keys -> friction b' = friction b)
    /\ (k ∉ scored_keys -> b' = b).
Proof.
  intros H. apply calculate_cps_inv in H
    as (t1 & t2 & t3 & t4 & t5 & c1 & c2 & c3 & f1 & f2 & f3 & H).
  cbv zeta in H.
  destruct H as (H1 & H2 & H3 & H4 & H5 & H6 & H7 & H8 & H9 & H10 & H11 & ->).
  destruct (weighted_override _ _ k w _ _ H1) as (t1' & K1 & E1).
  destruct (weighted_override _ _ k w _ _ H2) as (t2' & K2 & E2).
  destruct (weighted_override _ _ k w _ _ H3) as (t3' & K3 & E3).
  destruct (weighted_override _ _ k w _ _ H4) as (t4' & K4 & E4).
  destruct (weighted_override _ _ k w _ _ H5) as (t5' & K5 & E5).
  destruct (weighted_override _ _ k w _ _ H6) as (c1' & K6 & E6).
  destruct (weighted_override _ _ k w _ _ H7) as (c2' & K7 & E7).
  destruct (weighted_override _ _ k w _ _ H8) as (c3' & K8 & E8).
  destruct (weighted_override _ _ k w _ _ H9) as (f1' & K9 & E9).
  destruct (weighted_override _ _ k w _ _ H10) as (f2' & K10 & E10).
  destruct (weighted_override _ _ k w _ _ H11) as (f3' & K11 & E11).
  rewrite <- init_singleton in K1, K2, K3, K4, K5, K6, K7, K8, K9, K10, K11.
  eexists. split.
  { apply (calculate_cps_intro self _ stats _ _ _ _ _ _ _ _ _ _ _
             K1 K2 K3 K4 K5 K6 K7 K8 K9 K10 K11). }
  cbn [threat control friction].
  split; [| split; [| split]]; intros Hk.
  - unfold threat_keys in Hk. split_not_elem Hk.
    now rewrite E1, E2, E3, E4, E5.
  - unfold control_keys in Hk. split_not_elem Hk. now rewrite E6, E7, E8.
  - unfold friction_keys in Hk. split_not_elem Hk. now rewrite E9, E10, E11.
  - unfold scored_keys in Hk. split_not_elem Hk.
    now rewrite E1, E2, E3, E4, E5, E6, E7, E8, E9, E10, E11.
Qed.

Lemma override_changes_only_its_component_witness :
  exists b b',
    calculate_cps Agent initial_state sample_stats = Ok b
    /\ calculate_cps Agent (init (Some {["fouls" := lit "1.5"]}) initial_state).2
         sample_stats = Ok b'
    /\ threat b' = threat b /\ control b' = control b.
Proof.
  assert (Hnt : "fouls" ∉ threat_keys)
    by (apply (bool_decide_unpack _); vm_compute; reflexivity).
  assert (Hnc : "fouls" ∉ control_keys)
    by (apply (bool_decide_unpack _); vm_compute; reflexivity).
  remember (calculate_cps Agent initial_state sample_stats) as c eqn:E.
  symmetry in E. destruct c as [b|]; [| vm_compute in E; discriminate E].
  destruct (override_changes_only_its_component Agent initial_state sample_stats
              "fouls" (lit "1.5") b E) as (b' & Hb' & Ht & Hc & _).
  exists b, b'. split; [reflexivity |]. split; [exact Hb' |].
  split; [exact (Ht Hnt) | exact (Hc Hnc)].
Defined.

(** X5. Constructions compose: constructing an instance with the
    non-empty override [w1] and then one with the non-empty override [w2]
    leaves the class dictionary exactly as one construction with [w2]
    merged over [w1] does; in particular a repeated override changes
    nothing more. *)
Theorem init_compose (w1 w2 : gmap string float) (st : class_state) :
  size w1 <> 0%nat -> size w2 <> 0%nat ->
  (init (Some w2) (init (Some w1) st).2).2 = (init (Some (w2 ∪ w1)) st).2
  /\ (init (Some w1) (init (Some w1) st).2).2 = (init (Some w1) st).2.
Proof.
  intros H1 H2.
  assert (H12 : size (w2 ∪ w1) <> 0%nat).
  { rewrite map_size_non_empty_iff in *. intros E. apply H2.
    exact (map_positive_l _ _ E). }
  unfold init.
  rewrite !(bool_decide_eq_false_2 _ H1), !(bool_decide_eq_false_2 _ H2),
    !(bool_decide_eq_false_2 _ H12).
  cbn [snd cls_WEIGHTS]. split; f_equal.
  - apply map_union_assoc.
  - rewrite map_union_assoc. f_equal. apply map_union_idemp.
Qed.

Lemma init_compose_witness :
  (init (Some override_fouls_2) (init (Some override_fouls_1) initial_state).2).2
  = (init (Some (override_fouls_2 ∪ override_fouls_1)) initial_state).2.
Proof.
  assert (H1 : size override_fouls_1 <> 0%nat) by (vm_compute; discriminate).
  assert (H2 : size override_fouls_2 <> 0%nat) by (vm_compute; discriminate).
  exact (proj1 (init_compose override_fouls_1 override_fouls_2 initial_state H1 H2)).
Defined.

(** X6. A NaN statistic silently ties the match: when one of the eleven
    scored statistics of a record is NaN (which is what the provider text
    "nan" is cleaned to), the total of a successful [calculate_cps] is NaN,
    and the comparator, whichever side that breakdown is on and whatever the
    other breakdown, answers with the tied sentinel and no dominance. *)
Theorem nan_statistic_ties
  (self : agent) (st : class_state) (stats : stat_record) (k : string)
  (b : CPSBreakdown) :
  k ∈ scored_keys ->
  stats !! k = Some (SNum nan) ->
  calculate_cps self st stats = Ok b ->
  _clean_stat_value (RStr "nan") = Ok nan
  /\ total b = nan
  /\ forall info other,
       (better_team (compare info b other) = tied
        /\ dominance (compare info b other) = EmptyString)
       /\ (better_team (compare info other b) = tied
           /\ dominance (compare info other b) = EmptyString).
Proof.
  intros Hk Hs H. split; [vm_compute; reflexivity |].
  assert (Hnan : forall x, weighted (cls_WEIGHTS st) stats k = Ok x -> x = nan).
  { intros x. unfold weighted. rewrite Hs.
    destruct (cls_WEIGHTS st !! k); [| discriminate].
    intros [= <-]. reflexivity. }
  apply calculate_cps_inv in H
    as (t1 & t2 & t3 & t4 & t5 & c1 & c2 & c3 & f1 & f2 & f3 & H).
  cbv zeta in H.
  destruct H as (H1 & H2 & H3 & H4 & H5 & H6 & H7 & H8 & H9 & H10 & H11 & ->).
  assert (Ht : add (add (add (add (add (add t1 t2) t3) t4) t5) (add (add c1 c2) c3))
                 (add (add f1 f2) f3) = nan).
  { unfold scored_keys in Hk.
    repeat (apply elem_of_cons in Hk as [-> | Hk]);
      [.. | now apply elem_of_nil in Hk];
      match goal with
      | Hw : weighted _ _ ?key = Ok ?x |- _ =>
          match type of Hnan with
          | forall _, weighted _ _ key = _ -> _ => rewrite (Hnan x Hw)
          end
      end;
      now rewrite ?add_nan_l, ?add_nan_r. }
  cbn [total]. split; [exact Ht |].
  intros info other.
  split; apply labels_split; rewrite compare_labels; cbn [total]; rewrite Ht;
    rewrite ?sub_nan_r; reflexivity.
Qed.

Lemma nan_statistic_ties_witness :
  let stats : stat_record := <["possession" := SNum nan]> sample_stats in
  exists b, calculate_cps Agent initial_state stats = Ok b /\ total b = nan.
Proof.
  intros stats.
  remember (calculate_cps Agent initial_state stats) as c eqn:E.
  symmetry in E. destruct c as [b|]; [| vm_compute in E; discriminate E].
  exists b. split; [reflexivity |].
  refine (proj1 (proj2 (nan_statistic_ties Agent initial_state stats "possession" b
                          _ eq_refl E))).
  unfold scored_keys. rewrite !elem_of_cons. do 5 right. now left.
Defined.

End Score_more.

(* ===================================================================== *)
(** * Further properties of the comparator *)
(* ===================================================================== *)

Section Comparator_more.

Import Float64.

Lemma binary_round_negb s m e :
  binary_round prec emax (negb s) m e = SFopp (binary_round prec emax s m e).
Proof.
  unfold binary_round. destruct (shl_align _ _ _) as [mz ez].
  apply binary_round_aux_negb.
Qed.

Lemma binary_normalize_opp m e :
  m <> 0 ->
  binary_normalize prec emax (- m) e false
  = SFopp (binary_normalize prec emax m e false).
Proof.
  destruct m as [|p|p]; [congruence | |]; intros _; cbn [Z.opp binary_normalize].
  - exact (binary_round_negb false p e).
  - exact (binary_round_negb true p e).
Qed.

(** Exchanging the operands of a subtraction negates the result, unless
    both results are zeros. *)
Lemma sub_swap x y :
  sub y x = opp (sub x y)
  \/ (is_zero (sub x y) = true /\ is_zero (sub y x) = true).
Proof.
  unfold sub, opp.
  destruct x as [sx|sx| |sx mx ex], y as [sy|sy| |sy my ey];
    try (left; reflexivity); try (right; split; reflexivity);
    try (destruct sx, sy; (left; reflexivity) || (right; split; reflexivity)).
  cbn [SFsub]. rewrite (Z.min_comm ey ex).
  set (A := cond_Zopp sx _). set (B := cond_Zopp sy _).
  replace (B - A) with (- (A - B)) by lia.
  destruct (Z.eq_dec (A - B) 0) as [E|E].
  - right. rewrite E. split; reflexivity.
  - left. now apply binary_normalize_opp.
Qed.

Lemma compare_opp x y :
  SFcompare (opp x) (opp y) = option_map CompOpp (SFcompare x y).
Proof.
  destruct x as [sx|sx| |sx mx ex], y as [sy|sy| |sy my ey]; simpl;
    try reflexivity;
    try (destruct sx; reflexivity); try (destruct sy; reflexivity);
    try (destruct sx, sy; reflexivity).
  destruct sx, sy; simpl; try reflexivity; destruct (ex ?= ey); simpl;
    try reflexivity.
  now rewrite CompOpp_involutive.
Qed.

Lemma opp_involutive x : opp (opp x) = x.
Proof. destruct x as [s|s| |s m e]; simpl; now rewrite ?negb_involutive. Qed.

Lemma ltb_opp x y : ltb (opp x) (opp y) = ltb y x.
Proof.
  unfold ltb, SFltb. rewrite compare_opp, (compare_antisym y x).
  destruct (SFcompare x y) as [[]|]; reflexivity.
Qed.

Lemma ltb_opp_l x c : ltb (opp x) c = ltb (opp c) x.
Proof. rewrite <- (opp_involutive c) at 1. apply ltb_opp. Qed.

Lemma ltb_opp_r x c : ltb c (opp x) = ltb x (opp c).
Proof. rewrite <- (opp_involutive c) at 1. apply ltb_opp. Qed.

Lemma abs_opp x : abs (opp x) = abs x.
Proof. destruct x; reflexivity. Qed.

Lemma zero_in_tied_band d :
  is_zero d = true ->
  gtb d (of_Z 5) = false /\ gtb d (of_Z 2) = false
  /\ ltb d (of_Z (-5)) = false /\ ltb d (of_Z (-2)) = false.
Proof. destruct d as [s|s| |s m e]; try discriminate. now destruct s. Qed.

Lemma compare_scores (info : match_info) (h a : CPSBreakdown) :
  home_score (compare info h a) = round2 (total h)
  /\ away_score (compare info h a) = round2 (total a)
  /\ difference (compare info h a) = round2 (abs (sub (total h) (total a))).
Proof.
  unfold compare.
  destruct (gtb _ _); [now repeat split |].
  destruct (gtb _ _); [now repeat split |].
  destruct (ltb _ _); [now repeat split |].
  destruct (ltb _ _); now repeat split.
Qed.

(** X7. The comparator treats the two teams alike: comparing the match
    with home and away exchanged (names and breakdowns) names the same
    better team with the same dominance and the same difference, and
    exchanges the two rounded scores. *)
Theorem compare_swap (info : match_info) (h a : CPSBreakdown) :
  let c := compare info h a in
  let c' := compare (swap_teams info) a h in
  better_team c' = better_team c
  /\ dominance c' = dominance c
  /\ difference c' = difference c
  /\ home_score c' = away_score c
  /\ away_score c' = home_score c.
Proof.
  intros c c'.
  destruct (compare_scores info h a) as (Sh & Sa & Sd).
  destruct (compare_scores (swap_teams info) a h) as (Sh' & Sa' & Sd').
  fold c in Sh, Sa, Sd. fold c' in Sh', Sa', Sd'.
  pose proof (compare_labels info h a) as L.
  pose proof (compare_labels (swap_teams info) a h) as L'.
  fold c in L. fold c' in L'. cbv zeta in L, L'.
  cbn [swap_teams home_team away_team] in L'.
  assert (Hlab : (better_team c', dominance c') = (better_team c, dominance c)
                 /\ abs (sub (total a) (total h)) = abs (sub (total h) (total a))).
  { rewrite L, L'. clear L L'.
    destruct (sub_swap (total h) (total a)) as [E | [Z1 Z2]].
    - rewrite E, abs_opp. split; [| reflexivity].
      set (d := sub (total h) (total a)).
      unfold gtb.
      rewrite (ltb_opp_r d (of_Z 5)), (ltb_opp_r d (of_Z 2)),
        (ltb_opp_l d (of_Z (-5))), (ltb_opp_l d (of_Z (-2))).
      change (opp (of_Z 5)) with (of_Z (-5)).
      change (opp (of_Z 2)) with (of_Z (-2)).
      change (opp (of_Z (-5))) with (of_Z 5).
      change (opp (of_Z (-2))) with (of_Z 2).
      destruct (ltb d (of_Z (-5))) eqn:C.
      { pose proof (below_negative_not_above d (of_Z (-5)) (of_Z 5)
                      eq_refl eq_refl C) as A.
        pose proof (below_negative_not_above d (of_Z (-5)) (of_Z 2)
                      eq_refl eq_refl C) as B.
        unfold gtb in A, B. now rewrite A, B. }
      destruct (ltb d (of_Z (-2))) eqn:D.
      { pose proof (below_negative_not_above d (of_Z (-2)) (of_Z 5)
                      eq_refl eq_refl D) as A.
        pose proof (below_negative_not_above d (of_Z (-2)) (of_Z 2)
                      eq_refl eq_refl D) as B.
        unfold gtb in A, B. now rewrite A, B. }
      destruct (ltb (of_Z 5) d); [reflexivity |].
      destruct (ltb (of_Z 2) d); reflexivity.
    - destruct (zero_in_tied_band _ Z1) as (A1 & B1 & C1 & D1).
      destruct (zero_in_tied_band _ Z2) as (A2 & B2 & C2 & D2).
      rewrite A1, B1, C1, D1, A2, B2, C2, D2. split; [reflexivity |].
      destruct (sub (total h) (total a)), (sub (total a) (total h));
        try discriminate; reflexivity. }
  destruct Hlab as [Hlab Habs]. injection Hlab as Hb Hd.
  repeat split; try assumption.
  - now rewrite Sd', Sd, Habs.
  - now rewrite Sh', Sa.
  - now rewrite Sa', Sh.
Qed.

Lemma signbit_binary_round_aux m e l :
  signbit (binary_round_aux prec emax false m e l) = false.
Proof.
  unfold binary_round_aux.
  destruct (shr_fexp prec emax m e l) as [mrs' e'].
  destruct (shr_fexp prec emax _ e' loc_Exact) as [mrs'' e''].
  destruct (shr_m mrs''); try reflexivity.
  destruct (e'' <=? emax - prec); reflexivity.
Qed.

Lemma signbit_of_decimal n e10 : signbit (of_decimal false n e10) = false.
Proof.
  unfold of_decimal. destruct n as [|p|p]; try reflexivity.
  destruct (0 <=? e10).
  - unfold binary_round. destruct (shl_align _ _ _) as [mz ez].
    apply signbit_binary_round_aux.
  - unfold div. cbn [SFdiv].
    destruct (SFdiv_core_binary _ _ _ _ _ _) as [[mz ez] lz].
    apply signbit_binary_round_aux.
Qed.

Lemma signbit_round2_abs x : signbit (round2 (abs x)) = false.
Proof.
  destruct x as [s|s| |s m e]; try reflexivity.
  cbn [abs SFabs round2]. apply signbit_of_decimal.
Qed.

Lemma digit_char_not_minus n : Ascii.eqb (PyStr.digit_char (n mod 10)) "-" = false.
Proof.
  assert (H : 0 <= n mod 10 < 10) by (apply Z.mod_pos_bound; lia).
  assert (E : n mod 10 = 0 \/ n mod 10 = 1 \/ n mod 10 = 2 \/ n mod 10 = 3
              \/ n mod 10 = 4 \/ n mod 10 = 5 \/ n mod 10 = 6 \/ n mod 10 = 7
              \/ n mod 10 = 8 \/ n mod 10 = 9) by lia.
  repeat destruct E as [E|E]; rewrite E; reflexivity.
Qed.

Lemma decimal_digits_no_minus fuel n acc :
  starts_with_minus acc = false ->
  starts_with_minus (PyStr.decimal_digits (S fuel) n acc) = false.
Proof.
  revert n acc. induction fuel as [|fuel IH]; intros n acc Ha.
  - cbn [PyStr.decimal_digits].
    destruct (n / 10 =? 0); cbn [starts_with_minus]; apply digit_char_not_minus.
  - change (PyStr.decimal_digits (S (S fuel)) n acc)
      with (let acc' := String (PyStr.digit_char (n mod 10)) acc in
            if n / 10 =? 0 then acc'
            else PyStr.decimal_digits (S fuel) (n / 10) acc').
    cbv zeta. destruct (n / 10 =? 0).
    + cbn [starts_with_minus]. apply digit_char_not_minus.
    + apply IH. cbn [starts_with_minus]. apply digit_char_not_minus.
Qed.

Lemma append_starts_with_minus (s t : string) :
  s <> EmptyString -> starts_with_minus (s +:+ t) = starts_with_minus s.
Proof. destruct s; [congruence | reflexivity]. Qed.

Lemma decimal_digits_nonempty fuel n acc :
  PyStr.decimal_digits (S fuel) n acc <> EmptyString.
Proof.
  revert n acc. induction fuel as [|fuel IH]; intros n acc.
  - cbn [PyStr.decimal_digits]. destruct (n / 10 =? 0); discriminate.
  - change (PyStr.decimal_digits (S (S fuel)) n acc)
      with (let acc' := String (PyStr.digit_char (n mod 10)) acc in
            if n / 10 =? 0 then acc'
            else PyStr.decimal_digits (S fuel) (n / 10) acc').
    cbv zeta. destruct (n / 10 =? 0); [discriminate | apply IH].
Qed.

Lemma format_1f_no_minus x :
  signbit x = false -> starts_with_minus (PyStr.format_1f x) = false.
Proof.
  destruct x as [s|s| |s m e]; cbn [signbit]; intros H; subst; try reflexivity.
  change (starts_with_minus
            (PyStr.decimal (Float64.scaled_round m e 1 / 10) +:+ "." +:+
             PyStr.decimal (Float64.scaled_round m e 1 mod 10)) = false).
  unfold PyStr.decimal at 1.
  rewrite (append_starts_with_minus (PyStr.decimal_digits _ _ _))
    by apply decimal_digits_nonempty.
  now apply decimal_digits_no_minus.
Qed.

(** X8. The margin of a comparison never carries a minus sign: the field
    [difference], which is [round(abs(diff), 2)], has a clear sign bit
    (it is neither negative nor the negative zero), and so its text in the
    verdict, formatted with [.1f], does not begin with "-". *)
Theorem difference_not_negative (info : match_info) (h a : CPSBreakdown) :
  signbit (difference (compare info h a)) = false
  /\ starts_with_minus (PyStr.format_1f (difference (compare info h a))) = false.
Proof.
  destruct (compare_scores info h a) as (_ & _ & ->).
  pose proof (signbit_round2_abs (sub (total h) (total a))) as H.
  split; [exact H | now apply format_1f_no_minus].
Qed.

End Comparator_more.

(* ===================================================================== *)
(** * The whole analysis: [analyze_match] and its readers *)
(* ===================================================================== *)

Section Analysis.

Import Float64.












Lemma to_dict_lookup (b : CPSBreakdown) :
  to_dict b !! "threat" = Some (round2 (threat b))
  /\ to_dict b !! "control" = Some (round2 (control b))
  /\ to_dict b !! "friction" = Some (round2 (friction b))
  /\ to_dict b !! "total" = Some (round2 (total b)).
Proof.
  unfold to_dict. repeat split;
    repeat (rewrite lookup_insert_ne by discriminate); apply lookup_insert_eq.
Qed.

(** X11. The bar chart of the visualizer finds its four heights in every
    [to_dict] dictionary: looking up the lower-cased categories Threat,
    Control, Friction and TOTAL gives the four rounded scores in that order,
    without a [KeyError]; the capitalised dictionary of ["home_cps"] is not
    interchangeable with it (its first lookup fails). *)
Theorem bar_scores_of_to_dict (b : CPSBreakdown) :
  bar_scores bar_categories (to_dict b)
  = Ok [round2 (threat b); round2 (control b); round2 (friction b);
        round2 (total b)]
  /\ bar_scores bar_categories (cps_dict b) = Raise (KeyError "threat").
Proof.
  destruct (to_dict_lookup b) as (Ht & Hc & Hf & Hto).
  unfold bar_categories. cbn [bar_scores].
  change (PyStr.lower "Threat") with "threat".
  change (PyStr.lower "Control") with "control".
  change (PyStr.lower "Friction") with "friction".
  change (PyStr.lower "TOTAL") with "total".
  rewrite Ht, Hc, Hf, Hto. split; [reflexivity |].
  unfold cps_dict, dict_of. cbn [foldl fst snd].
  rewrite !lookup_insert_ne by discriminate. rewrite lookup_empty. reflexivity.
Qed.



End Analysis.

(* ===================================================================== *)
(** * The columns of [to_dataframe] *)
(* ===================================================================== *)

Section Dataframe.

Lemma column_length_insert (k : string) (l : list cell)
  (data : gmap string (list cell)) (j : string) :
  column_length j (<[k := l]> data)
  = if decide (k = j) then length l else column_length j data.
Proof.
  unfold column_length. rewrite lookup_insert.
  destruct (decide (k = j)); reflexivity.
Qed.

Lemma column_uses_eq (home away j : string) :
  column_uses home away j
  = ((if decide ("Metrica" = j) then 1 else 0)
     + (if decide (home = j) then 1 else 0)
     + (if decide (away = j) then 1 else 0))%nat.
Proof.
  unfold column_uses. rewrite !filter_cons, filter_nil.
  destruct (decide ("Metrica" = j)), (decide (home = j)), (decide (away = j));
    reflexivity.
Qed.

Lemma append_cell_ok (k : string) (c : cell) (data : gmap string (list cell)) :
  is_Some (data !! k) ->
  exists data',
    append_cell k c data = Ok data'
    /\ (forall j, column_length j data'
                  = (column_length j data + (if decide (k = j) then 1 else 0))%nat)
    /\ (forall j, is_Some (data !! j) -> is_Some (data' !! j)).
Proof.
  intros [l Hl]. unfold append_cell. rewrite Hl.
  eexists. split; [reflexivity |]. split; intros j.
  - rewrite column_length_insert. destruct (decide (k = j)) as [<-|]; [| lia].
    unfold column_length. rewrite Hl. cbn. rewrite length_app.
    cbn. lia.
  - rewrite lookup_insert. destruct (decide (k = j)); eauto.
Qed.

(** One row: a cell appended to each of the three columns. *)
Lemma append_row (home away : string) (c1 c2 c3 : cell)
  (data : gmap string (list cell)) :
  columns_present home away data ->
  exists d1 d2 d3,
    append_cell "Metrica" c1 data = Ok d1
    /\ append_cell home c2 d1 = Ok d2
    /\ append_cell away c3 d2 = Ok d3
    /\ columns_present home away d3
    /\ forall j, column_length j d3
                 = (column_length j data + column_uses home away j)%nat.
Proof.
  intros (Pm & Ph & Pa).
  destruct (append_cell_ok "Metrica" c1 data Pm) as (d1 & E1 & L1 & K1).
  destruct (append_cell_ok home c2 d1 (K1 _ Ph)) as (d2 & E2 & L2 & K2).
  destruct (append_cell_ok away c3 d2 (K2 _ (K1 _ Pa))) as (d3 & E3 & L3 & K3).
  exists d1, d2, d3.
  split; [exact E1 |]. split; [exact E2 |]. split; [exact E3 |]. split.
  - unfold columns_present.
    split; [| split]; apply K3, K2, K1; assumption.
  - intros j. rewrite L3, L2, L1, column_uses_eq. lia.
Qed.

Lemma dataframe_stat_rows_ok (home away : string) (hs aws : stat_record)
  (rows : list (string * string)) (data : gmap string (list cell)) :
  columns_present home away data ->
  exists data',
    dataframe_stat_rows home away hs aws rows data = Ok data'
    /\ columns_present home away data'
    /\ forall j, column_length j data'
                 = (column_length j data + length rows * column_uses home away j)%nat.
Proof.
  revert data. induction rows as [|[label key] rows IH]; intros data P.
  - exists data. split; [reflexivity |]. split; [exact P |].
    intros j. cbn [length]. lia.
  - cbn [dataframe_stat_rows].
    destruct (append_row home away (CText label) (stat_cell hs key)
                (stat_cell aws key) data P) as (d1 & d2 & d3 & -> & E2 & E3 & P3 & L3).
    rewrite bind_Ok, E2, bind_Ok, E3, bind_Ok.
    destruct (IH d3 P3) as (data' & E & P' & L').
    exists data'. split; [exact E |]. split; [exact P' |].
    intros j. rewrite L', L3. cbn [length]. lia.
Qed.

Lemma dataframe_score_rows_ok (home away : string) (hsc asc : gmap string float)
  (rows : list (string * string)) (data : gmap string (list cell)) :
  Forall (fun r => is_Some (hsc !! r.2) /\ is_Some (asc !! r.2)) rows ->
  columns_present home away data ->
  exists data',
    dataframe_score_rows home away hsc asc rows data = Ok data'
    /\ columns_present home away data'
    /\ forall j, column_length j data'
                 = (column_length j data + length rows * column_uses home away j)%nat.
Proof.
  revert data. induction rows as [|[label key] rows IH]; intros data HF P.
  - exists data. split; [reflexivity |]. split; [exact P |].
    intros j. cbn [length]. lia.
  - apply Forall_cons in HF as [[[x Hx] [y Hy]] HF]. cbn [snd] in Hx, Hy.
    cbn [dataframe_score_rows].
    destruct (append_row home away (CText label) (CScore x) (CScore y) data P)
      as (d1 & d2 & d3 & -> & E2 & E3 & P3 & L3).
    unfold score_cell. rewrite bind_Ok, Hx, bind_Ok, E2, bind_Ok, Hy, bind_Ok, E3,
      bind_Ok.
    destruct (IH d3 HF P3) as (data' & E & P' & L').
    exists data'. split; [exact E |]. split; [exact P' |].
    intros j. rewrite L', L3. cbn [length]. lia.
Qed.

Lemma to_dict_scores (b : CPSBreakdown) :
  is_Some (to_dict b !! "threat") /\ is_Some (to_dict b !! "control")
  /\ is_Some (to_dict b !! "friction") /\ is_Some (to_dict b !! "total").
Proof.
  destruct (to_dict_lookup b) as (Ht & Hc & Hf & Hto).
  rewrite Ht, Hc, Hf, Hto. repeat split; eexists; reflexivity.
Qed.

(** X13. The three columns [to_dataframe] builds for [pd.DataFrame]: on
    an analysis whose scores come from [to_dict], building them does not
    raise, and the column under a name has 13 entries for each of the three
    column names ("Metrica", the home team, the away team) equal to it. So
    with three different names every column has 13 entries, while for two
    teams of the same name the single column they share has 26 entries
    against the 13 labels. *)
Theorem to_dataframe_column_lengths (an : analysis) (h a : CPSBreakdown) :
  an_cps_scores an = (to_dict h, to_dict a) ->
  let home_name := home_team (an_match_info an) in
  let away_name := away_team (an_match_info an) in
  exists data,
    to_dataframe_columns an = Ok data
    /\ (forall k, column_length k data = (13 * column_uses home_name away_name k)%nat)
    /\ (home_name <> away_name -> home_name <> "Metrica" -> away_name <> "Metrica" ->
        column_length "Metrica" data = 13%nat
        /\ column_length home_name data = 13%nat
        /\ column_length away_name data = 13%nat)
    /\ (home_name = away_name -> home_name <> "Metrica" ->
        column_length "Metrica" data = 13%nat
        /\ column_length home_name data = 26%nat).
Proof.
  intros Hsc home_name away_name.
  assert (Hlen : exists data,
    to_dataframe_columns an = Ok data
    /\ forall k, column_length k data = (13 * column_uses home_name away_name k)%nat).
  { unfold to_dataframe_columns. fold home_name away_name. rewrite Hsc. cbn [fst snd].
    set (d0 := dict_of [("Metrica", []); (home_name, []); (away_name, [])]).
    assert (P0 : columns_present home_name away_name d0).
    { unfold columns_present, d0, dict_of. cbn [foldl fst snd].
      rewrite !lookup_insert.
      repeat split; repeat destruct (decide _); eauto; congruence. }
    assert (L0 : forall j, column_length j d0 = 0%nat).
    { intros j. unfold d0, dict_of. cbn [foldl fst snd].
      rewrite !column_length_insert. unfold column_length. rewrite lookup_empty.
      repeat destruct (decide _); reflexivity. }
    destruct (dataframe_stat_rows_ok home_name away_name (home (an_stats an))
                (away (an_stats an)) dataframe_metrics d0 P0) as (d1 & -> & P1 & L1).
    rewrite bind_Ok.
    destruct (append_row home_name away_name (CText "--- CPS ---")
                (CText EmptyString) (CText EmptyString) d1 P1)
      as (e1 & e2 & d2 & -> & E2 & E3 & P2 & L2).
    rewrite bind_Ok, E2, bind_Ok, E3, bind_Ok.
    destruct (to_dict_scores h) as (Th & Ch & Fh & Toh).
    destruct (to_dict_scores a) as (Ta & Ca & Fa & Toa).
    destruct (dataframe_score_rows_ok home_name away_name (to_dict h) (to_dict a)
                dataframe_scores d2) as (d3 & E & _ & L3).
    { unfold dataframe_scores. repeat constructor; assumption. }
    { exact P2. }
    exists d3. split; [exact E |].
    intros k. rewrite L3, L2, L1, L0.
    change (length dataframe_metrics) with 8%nat.
    change (length dataframe_scores) with 4%nat. lia. }
  destruct Hlen as (data & E & L). exists data.
  split; [exact E |]. split; [exact L |]. split.
  - intros Hne Hh Ha. rewrite !L, !column_uses_eq.
    repeat destruct (decide _); try congruence; repeat split; reflexivity.
  - intros He Hh. rewrite !L, !column_uses_eq.
    repeat destruct (decide _); try congruence; repeat split; reflexivity.
Qed.

Lemma to_dataframe_column_lengths_witness :
  let an := {| an_match_info := sample_info; an_stats := empty_stats;
               an_cps_scores := (to_dict zero_breakdown, to_dict zero_breakdown);
               an_home_cps := zero_breakdown; an_away_cps := zero_breakdown;
               an_comparison := tied_comparison; an_verdict := EmptyString |} in
  exists data, to_dataframe_columns an = Ok data
    /\ column_length "Metrica" data = 13%nat
    /\ column_length "Boca" data = 13%nat
    /\ column_length "River" data = 13%nat.
Proof.
  intros an.
  destruct (to_dataframe_column_lengths an zero_breakdown zero_breakdown eq_refl)
    as (data & E & _ & H & _).
  exists data. split; [exact E |].
  apply H; discriminate.
Defined.

End Dataframe.

(* ===================================================================== *)
(** * The signs of the components *)
(* ===================================================================== *)

Section Signs.

Import Float64.

Lemma shr_1_nonneg mrs : 0 <= shr_m mrs -> 0 <= shr_m (shr_1 mrs).
Proof.
  destruct mrs as [m r s]. cbn [shr_m].
  destruct m as [|[p|p|]|[p|p|]]; cbn; lia.
Qed.

Lemma iter_shr_1_nonneg p mrs :
  0 <= shr_m mrs -> 0 <= shr_m (SpecFloat.iter_pos shr_1 p mrs).
Proof.
  revert mrs. induction p as [p IH|p IH|]; intros mrs H; cbn [SpecFloat.iter_pos].
  - apply IH, IH, shr_1_nonneg, H.
  - apply IH, IH, H.
  - apply shr_1_nonneg, H.
Qed.

Lemma shr_fexp_nonneg m e l :
  0 <= m -> 0 <= shr_m (shr_fexp prec emax m e l).1.
Proof.
  intros H. unfold shr_fexp, shr.
  assert (H0 : 0 <= shr_m (shr_record_of_loc m l)) by (now destruct l as [|[]]).
  destruct (fexp prec emax (Zdigits2 m + e) - e); cbn [fst]; try exact H0.
  now apply iter_shr_1_nonneg.
Qed.

Lemma round_nearest_even_nonneg m l : 0 <= m -> 0 <= round_nearest_even m l.
Proof.
  intros H. destruct l as [|[]]; cbn [round_nearest_even]; try lia.
  destruct (Z.even m); lia.
Qed.

(** Rounding a non-negative mantissa gives a float of the requested sign. *)
Lemma binary_round_aux_sign s m e l :
  0 <= m -> sign_is s (binary_round_aux prec emax s m e l).
Proof.
  intros H. unfold binary_round_aux.
  pose proof (shr_fexp_nonneg m e l H) as H1.
  destruct (shr_fexp prec emax m e l) as [mrs' e']. cbn [fst] in H1.
  pose proof (shr_fexp_nonneg _ e' loc_Exact
                (round_nearest_even_nonneg _ (loc_of_shr_record mrs') H1)) as H2.
  destruct (shr_fexp prec emax _ e' loc_Exact) as [mrs'' e'']. cbn [fst] in H2.
  destruct (shr_m mrs'') as [|p|p]; [now split | | lia].
  destruct (e'' <=? emax - prec); now split.
Qed.

Lemma binary_round_sign s m e : sign_is s (binary_round prec emax s m e).
Proof.
  unfold binary_round. destruct (shl_align _ _ _) as [mz ez].
  apply binary_round_aux_sign. lia.
Qed.

(** The product of a value [>= +0.0] and a finite non-zero weight has the
    sign of the weight. *)
Lemma mul_sign x sw mw ew :
  sign_is false x -> sign_is sw (mul x (S754_finite sw mw ew)).
Proof.
  intros [Hn Hs]. destruct x as [s|s| |s m e]; cbn [is_nan signbit] in Hn, Hs;
    try discriminate; subst s; unfold mul; cbn [SFmul xorb].
  - now split.
  - now split.
  - apply binary_round_aux_sign. lia.
Qed.

(** The sum of two values of the same sign has that sign. *)
Lemma add_sign s x y : sign_is s x -> sign_is s y -> sign_is s (add x y).
Proof.
  intros [Hnx Hsx] [Hny Hsy].
  destruct x as [sx|sx| |sx mx ex]; cbn [is_nan signbit] in Hnx, Hsx;
    try discriminate;
    destruct y as [sy|sy| |sy my ey]; cbn [is_nan signbit] in Hny, Hsy;
    try discriminate; subst sx sy; unfold add; cbn [SFadd];
    try (destruct s; now split).
  destruct s; cbn [cond_Zopp Z.opp Z.add binary_normalize]; apply binary_round_sign.
Qed.

Lemma weighted_sign (W : gmap string float) (stats : stat_record) k sw mw ew t :
  W !! k = Some (S754_finite sw mw ew) ->
  (forall x, stats !! k = Some (SNum x) -> sign_is false x) ->
  weighted W stats k = Ok t ->
  sign_is sw t.
Proof.
  intros HW Hx. unfold weighted. rewrite HW.
  destruct (stats !! k) as [[x|txt]|]; [| discriminate |]; intros [= <-].
  - apply mul_sign. now apply Hx.
  - now split.
Qed.

Lemma WEIGHTS_signs :
  (exists m e, WEIGHTS !! "possession" = Some (S754_finite false m e))
  /\ (exists m e, WEIGHTS !! "pass_accuracy" = Some (S754_finite false m e))
  /\ (exists m e, WEIGHTS !! "total_passes" = Some (S754_finite false m e))
  /\ (exists m e, WEIGHTS !! "fouls" = Some (S754_finite true m e))
  /\ (exists m e, WEIGHTS !! "yellow_cards" = Some (S754_finite true m e))
  /\ (exists m e, WEIGHTS !! "red_cards" = Some (S754_finite true m e)).
Proof. repeat split; do 2 eexists; vm_compute; reflexivity. Qed.

(** X14. Under the default weights and for a record whose control and
    friction statistics, where present, are not negative (and not NaN), a
    successful [calculate_cps] returns a control that is never negative and
    a friction that is never positive: control is [>= +0.0] and friction is
    [<= -0.0], neither being a NaN. *)
Theorem control_friction_signs
  (self : agent) (stats : stat_record) (b : CPSBreakdown) :
  (forall k x, k ∈ control_keys ++ friction_keys ->
               stats !! k = Some (SNum x) -> sign_is false x) ->
  calculate_cps self initial_state stats = Ok b ->
  sign_is false (control b) /\ sign_is true (friction b).
Proof.
  intros Hx H. apply calculate_cps_inv in H
    as (t1 & t2 & t3 & t4 & t5 & c1 & c2 & c3 & f1 & f2 & f3 & H).
  cbv zeta in H. cbn [cls_WEIGHTS initial_state] in H.
  destruct H as (_ & _ & _ & _ & _ & H6 & H7 & H8 & H9 & H10 & H11 & ->).
  destruct WEIGHTS_signs as ((m1 & e1 & W1) & (m2 & e2 & W2) & (m3 & e3 & W3)
    & (m4 & e4 & W4) & (m5 & e5 & W5) & (m6 & e6 & W6)).
  assert (Hk : forall k, k ∈ control_keys ++ friction_keys ->
                 forall x, stats !! k = Some (SNum x) -> sign_is false x)
    by (intros k Hin x; now apply Hx).
  assert (Hin : forall k, bool_decide (k ∈ control_keys ++ friction_keys) = true ->
                  k ∈ control_keys ++ friction_keys)
    by (intros k; apply bool_decide_eq_true_1).
  pose proof (weighted_sign _ _ _ _ _ _ _ W1
                (Hk "possession" (Hin "possession" eq_refl)) H6) as S1.
  pose proof (weighted_sign _ _ _ _ _ _ _ W2
                (Hk "pass_accuracy" (Hin "pass_accuracy" eq_refl)) H7) as S2.
  pose proof (weighted_sign _ _ _ _ _ _ _ W3
                (Hk "total_passes" (Hin "total_passes" eq_refl)) H8) as S3.
  pose proof (weighted_sign _ _ _ _ _ _ _ W4
                (Hk "fouls" (Hin "fouls" eq_refl)) H9) as S4.
  pose proof (weighted_sign _ _ _ _ _ _ _ W5
                (Hk "yellow_cards" (Hin "yellow_cards" eq_refl)) H10) as S5.
  pose proof (weighted_sign _ _ _ _ _ _ _ W6
                (Hk "red_cards" (Hin "red_cards" eq_refl)) H11) as S6.
  cbn [control friction]. split; repeat apply add_sign; assumption.
Qed.

Lemma control_friction_signs_witness :
  exists b, calculate_cps Agent initial_state sample_stats = Ok b
    /\ sign_is false (control b) /\ sign_is true (friction b).
Proof.
  assert (Hx : forall k x, k ∈ control_keys ++ friction_keys ->
                 sample_stats !! k = Some (SNum x) -> sign_is false x).
  { intros k x Hk. cbn [app control_keys friction_keys] in Hk.
    repeat (apply elem_of_cons in Hk as [-> | Hk]);
      [.. | now apply elem_of_nil in Hk];
      intros E; vm_compute in E; try discriminate E;
      injection E as <-; split; reflexivity. }
  remember (calculate_cps Agent initial_state sample_stats) as c eqn:E.
  symmetry in E. destruct c as [b|]; [| vm_compute in E; discriminate E].
  exists b. split; [reflexivity |].
  exact (control_friction_signs Agent sample_stats b Hx E).
Defined.

End Signs.
